(** * FuzePicker selector synthesis: [getXPath] and [generateSelector]

    A shallow embedding of the two locator functions of [content.js]
    (lines 245-300) over an explicit model of the DOM they read, with the
    properties of the Selector Synthesizer stated and proved about it.

    The DOM is a store of node records linked by the three pointers the
    code follows ([parentNode], [previousSibling], [nextSibling]).  The
    two functions run in a small state-and-exception monad over that
    store, so that "does not throw", "returns" and "leaves the tree
    alone" are statements about outcomes and final stores.  The [while]
    loops take fuel; the totality results give the fuel that suffices. *)

From Stdlib Require Import Ascii String.
From stdpp Require Import base option list gmap strings pretty.

Local Open Scope string_scope.

(** ** Strings as the code builds them *)

(** The double quote of the template literal [//*[@id="..."]]. *)
Definition dquote : string := String (ascii_of_nat 34) "".

(** [String.prototype.toLowerCase], on the ASCII letters: ['A'..'Z'] are
    moved to ['a'..'z'], every other byte is kept. *)
Definition lower_ascii (c : ascii) : ascii :=
  let n := nat_of_ascii c in
  if (65 <=? n)%nat && (n <=? 90)%nat then ascii_of_nat (n + 32) else c.

Fixpoint toLowerCase (s : string) : string :=
  match s with
  | EmptyString => EmptyString
  | String c r => String (lower_ascii c) (toLowerCase r)
  end.

(** [Array.prototype.join]. *)
Definition join (sep : string) (parts : list string) : string :=
  String.concat sep parts.

(** JavaScript truthiness of a property that holds a string or is
    [undefined]: only a non-empty string is truthy. *)
Definition truthy (v : option string) : bool :=
  match v with
  | Some (String _ _) => true
  | _ => false
  end.

(** ** The class attribute and its token list

    [element.classList] is the DOM's ordered-set parse of the [class]
    attribute: the attribute is split on ASCII whitespace and a token that
    already occurred is not added again. *)

Definition is_ascii_whitespace (c : ascii) : bool :=
  let n := nat_of_ascii c in
  (n =? 9)%nat || (n =? 10)%nat || (n =? 12)%nat || (n =? 13)%nat || (n =? 32)%nat.

(** [cur] is the token being read, its characters in reverse. *)
Fixpoint split_whitespace (s : string) (cur : list ascii) : list string :=
  let flush := match cur with
               | [] => []
               | _ => [string_of_list_ascii (rev cur)]
               end in
  match s with
  | EmptyString => flush
  | String c r =>
      if is_ascii_whitespace c then flush ++ split_whitespace r []
      else split_whitespace r (c :: cur)
  end.

Fixpoint ordered_set (seen : list string) (tokens : list string) : list string :=
  match tokens with
  | [] => []
  | t :: r =>
      if bool_decide (t ∈ seen) then ordered_set seen r
      else t :: ordered_set (t :: seen) r
  end.

Definition parse_class_tokens (attr : string) : list string :=
  ordered_set [] (split_whitespace attr []).

(** ** The DOM store *)

Definition ref := positive.

(** The node types the walk can meet; [Node.ELEMENT_NODE] is 1. *)
Inductive OtherKind :=
  | TEXT_NODE | CDATA_SECTION_NODE | PROCESSING_INSTRUCTION_NODE
  | COMMENT_NODE | DOCUMENT_NODE | DOCUMENT_TYPE_NODE | DOCUMENT_FRAGMENT_NODE.

Inductive NodeData :=
  | Element (tag : string) (idAttr : string) (classAttr : string)
  | Other (k : OtherKind) (name : string).

Record NodeRec := mkNode {
  data : NodeData;
  parentNode : option ref;
  previousSibling : option ref;
  nextSibling : option ref
}.

Abbreviation Dom := (gmap ref NodeRec).

Definition ELEMENT_NODE : Z := 1.

Definition nodeType (n : NodeRec) : Z :=
  match data n with
  | Element _ _ _ => 1
  | Other TEXT_NODE _ => 3
  | Other CDATA_SECTION_NODE _ => 4
  | Other PROCESSING_INSTRUCTION_NODE _ => 7
  | Other COMMENT_NODE _ => 8
  | Other DOCUMENT_NODE _ => 9
  | Other DOCUMENT_TYPE_NODE _ => 10
  | Other DOCUMENT_FRAGMENT_NODE _ => 11
  end.

(** [nodeName] of an element is its [tagName]. *)
Definition nodeName (n : NodeRec) : string :=
  match data n with
  | Element tag _ _ => tag
  | Other _ name => name
  end.

(** The element-only properties are [undefined] ([None]) on other nodes. *)
Definition tagName (n : NodeRec) : option string :=
  match data n with
  | Element tag _ _ => Some tag
  | Other _ _ => None
  end.

Definition id (n : NodeRec) : option string :=
  match data n with
  | Element _ i _ => Some i
  | Other _ _ => None
  end.

Definition className (n : NodeRec) : option string :=
  match data n with
  | Element _ _ c => Some c
  | Other _ _ => None
  end.

Definition classList (n : NodeRec) : list string :=
  match data n with
  | Element _ _ c => parse_class_tokens c
  | Other _ _ => []
  end.

Definition is_element (n : NodeRec) : bool := (nodeType n =? ELEMENT_NODE)%Z.

(** ** Outcomes and the monad of DOM computations *)

Inductive Exn :=
  | TypeError      (* a property read on [undefined] *)
  | DanglingRef.   (* a reference that is not in the store *)

Inductive Outcome (A : Type) :=
  | Ret (a : A)
  | Throw (e : Exn)
  | OutOfFuel.
Arguments Ret {A} a.
Arguments Throw {A} e.
Arguments OutOfFuel {A}.

Definition M (A : Type) : Type := Dom -> Outcome A * Dom.

Definition ret {A} (a : A) : M A := fun d => (Ret a, d).

Definition bind {A B} (m : M A) (k : A -> M B) : M B :=
  fun d =>
    match m d with
    | (Ret a, d') => k a d'
    | (Throw e, d') => (Throw e, d')
    | (OutOfFuel, d') => (OutOfFuel, d')
    end.

Definition throw {A} (e : Exn) : M A := fun d => (Throw e, d).
Definition out_of_fuel {A} : M A := fun d => (OutOfFuel, d).

Notation "x <- m ;; k" := (bind m (fun x => k))
  (at level 100, m at next level, right associativity).

(** A computation is read-only when it hands back the store it was given. *)
Definition read_only {A} (m : M A) : Prop := forall d, (m d).2 = d.

(** Reading the record behind a reference. *)
Definition deref (r : ref) : M NodeRec :=
  fun d =>
    match d !! r with
    | Some n => (Ret n, d)
    | None => (Throw DanglingRef, d)
    end.

(** Calling a method on a property: a [TypeError] when it is [undefined]. *)
Definition defined {A} (v : option A) : M A :=
  match v with
  | Some a => ret a
  | None => throw TypeError
  end.

(** [node.parentElement]: the parent when it is an element, else [null]. *)
Definition parentElement (n : NodeRec) : M (option ref) :=
  match parentNode n with
  | None => ret None
  | Some p =>
      pn <- deref p ;;
      ret (if is_element pn then Some p else None)
  end.

(** A string-or-[undefined] property placed in a template literal. *)
Definition template (v : option string) : string :=
  match v with
  | Some s => s
  | None => "undefined"
  end.

(** ** [getXPath] (content.js, lines 245-278) *)

(** Lines 254-261: [sibling] runs back along [previousSibling] and counts
    the element siblings whose [nodeName] is [name]. *)
Fixpoint countPreviousSiblings (fuel : nat) (name : string)
    (sibling : option ref) (nbOfPreviousSiblings : nat) : M nat :=
  match sibling with
  | None => ret nbOfPreviousSiblings
  | Some r =>
      match fuel with
      | O => out_of_fuel
      | S fuel' =>
          s <- deref r ;;
          countPreviousSiblings fuel' name (previousSibling s)
            (if is_element s && bool_decide (nodeName s = name)
             then S nbOfPreviousSiblings else nbOfPreviousSiblings)
      end
  end.

(** Lines 263-270: [sibling] runs forward along [nextSibling] and stops at
    the first element sibling whose [nodeName] is [name]. *)
Fixpoint findNextSibling (fuel : nat) (name : string)
    (sibling : option ref) : M bool :=
  match sibling with
  | None => ret false
  | Some r =>
      match fuel with
      | O => out_of_fuel
      | S fuel' =>
          s <- deref r ;;
          if is_element s && bool_decide (nodeName s = name) then ret true
          else findNextSibling fuel' name (nextSibling s)
      end
  end.

(** Line 272: the positional predicate, or nothing. *)
Definition index (nbOfPreviousSiblings : nat) (hasNextSiblings : bool) : string :=
  if negb (nbOfPreviousSiblings =? 0)%nat || hasNextSiblings
  then "[" +:+ pretty (nbOfPreviousSiblings + 1)%nat +:+ "]"
  else "".

(** Lines 251-275: the outer loop; [parts.unshift] puts the new segment in
    front.  [inner] is the fuel handed to each sibling loop. *)
Fixpoint walkAncestors (inner fuel : nat) (element : option ref)
    (parts : list string) : M (list string) :=
  match element with
  | None => ret parts
  | Some r =>
      e <- deref r ;;
      if is_element e then
        match fuel with
        | O => out_of_fuel
        | S fuel' =>
            nb <- countPreviousSiblings inner (nodeName e) (previousSibling e) 0 ;;
            hasNext <- findNextSibling inner (nodeName e) (nextSibling e) ;;
            walkAncestors inner fuel' (parentNode e)
              ((toLowerCase (nodeName e) +:+ index nb hasNext) :: parts)
        end
      else ret parts
  end.

(** The function returns a string or [null]. *)
Definition getXPath (fuel : nat) (element : ref) : M (option string) :=
  e <- deref element ;;
  if truthy (id e) then
    ret (Some ("//*[@id=" +:+ dquote +:+ template (id e) +:+ dquote +:+ "]"))
  else
    parts <- walkAncestors fuel fuel (Some element) [] ;;
    ret (match parts with
         | [] => None
         | _ => Some ("/" +:+ join "/" parts)
         end).

(** ** [generateSelector] (content.js, lines 280-300) *)

(** Lines 285-290: the tag name and the class list. *)
Definition baseSelector (e : NodeRec) : M string :=
  tag <- defined (tagName e) ;;
  let selector := toLowerCase tag in
  if truthy (className e) then
    let classes := join "." (classList e) in
    ret (selector +:+ "." +:+ classes)
  else ret selector.

(** Lines 293-297: one level of parent. *)
Definition parentSelectorOf (p : NodeRec) : M string :=
  if truthy (id p) then ret ("#" +:+ template (id p))
  else
    tag <- defined (tagName p) ;;
    ret (toLowerCase tag).

Definition generateSelector (element : ref) : M string :=
  e <- deref element ;;
  if truthy (id e) then ret ("#" +:+ template (id e))
  else
    selector <- baseSelector e ;;
    parent <- parentElement e ;;
    match parent with
    | Some pr =>
        p <- deref pr ;;
        if bool_decide (tagName p ≠ Some "BODY") then
          parentSelector <- parentSelectorOf p ;;
          ret (parentSelector +:+ " > " +:+ selector)
        else ret selector
    | None => ret selector
    end.

(** ** Example documents *)

Definition elem (tag i c : string) (p prev next : option ref) : NodeRec :=
  mkNode (Element tag i c) p prev next.

(** A detached [<div>]. *)
Definition lone_div : Dom := {[ 1%positive := elem "DIV" "" "" None None None ]}.

(** [#document > html > body > ul > li*5], the [ul] between two text nodes. *)
Definition list_doc : Dom :=
  list_to_map
    [ (1%positive, mkNode (Other DOCUMENT_NODE "#document") None None None);
      (2%positive, elem "HTML" "" "" (Some 1%positive) None None);
      (3%positive, elem "BODY" "" "" (Some 2%positive) None None);
      (4%positive, mkNode (Other TEXT_NODE "#text") (Some 3%positive) None (Some 5%positive));
      (5%positive, elem "UL" "" "menu  main menu" (Some 3%positive) (Some 4%positive) (Some 6%positive));
      (6%positive, mkNode (Other TEXT_NODE "#text") (Some 3%positive) (Some 5%positive) None);
      (11%positive, elem "LI" "" "" (Some 5%positive) None (Some 12%positive));
      (12%positive, elem "LI" "" "" (Some 5%positive) (Some 11%positive) (Some 13%positive));
      (13%positive, elem "LI" "" "item" (Some 5%positive) (Some 12%positive) (Some 14%positive));
      (14%positive, elem "LI" "" "" (Some 5%positive) (Some 13%positive) (Some 15%positive));
      (15%positive, elem "LI" "" "" (Some 5%positive) (Some 14%positive) None) ].

(** ** Finite trees

    A document is a finite tree: from every node, each of the three
    pointer chains stays inside the store and reaches [null] after at most
    as many steps as the store has nodes. *)

Fixpoint chain_ends (d : Dom) (f : NodeRec -> option ref) (k : nat)
    (o : option ref) : bool :=
  match o with
  | None => true
  | Some r =>
      match k with
      | O => false
      | S k' =>
          match d !! r with
          | Some n => chain_ends d f k' (f n)
          | None => false
          end
      end
  end.

Definition wf_dom (d : Dom) : bool :=
  forallb (fun rn : ref * NodeRec =>
             chain_ends d parentNode (size d) (Some rn.1)
             && chain_ends d previousSibling (size d) (Some rn.1)
             && chain_ends d nextSibling (size d) (Some rn.1))
          (map_to_list d).

(** ** The XPath of the specification

    [computeXPath] as the specification words it: per element of the path,
    the number of preceding siblings with the identical tag name, whether a
    following sibling has it, and the segment built from the two. *)

(** The nodes met from [o] along [f], nearest first. *)
Fixpoint chain (d : Dom) (f : NodeRec -> option ref) (k : nat)
    (o : option ref) : list NodeRec :=
  match o, k with
  | Some r, S k' =>
      match d !! r with
      | Some n => n :: chain d f k' (f n)
      | None => []
      end
  | _, _ => []
  end.

Definition precedingSiblings (d : Dom) (x : NodeRec) : list NodeRec :=
  chain d previousSibling (size d) (previousSibling x).

Definition followingSiblings (d : Dom) (x : NodeRec) : list NodeRec :=
  chain d nextSibling (size d) (nextSibling x).

(** An element sibling with the identical tag name. *)
Definition sameTag (name : string) (s : NodeRec) : bool :=
  is_element s && bool_decide (nodeName s = name).

Definition precedingCount (d : Dom) (x : NodeRec) : nat :=
  length (List.filter (sameTag (nodeName x)) (precedingSiblings d x)).

Definition hasFollowing (d : Dom) (x : NodeRec) : bool :=
  existsb (sameTag (nodeName x)) (followingSiblings d x).

Definition xpathSegment (d : Dom) (x : NodeRec) : string :=
  if (0 <? precedingCount d x)%nat || hasFollowing d x
  then toLowerCase (nodeName x) +:+ "[" +:+ pretty (precedingCount d x + 1)%nat +:+ "]"
  else toLowerCase (nodeName x).

(** The node and its ancestors, node first, up to the first one that is
    not an element. *)
Fixpoint elementPath (d : Dom) (k : nat) (o : option ref) : list NodeRec :=
  match o, k with
  | Some r, S k' =>
      match d !! r with
      | Some n => if is_element n then n :: elementPath d k' (parentNode n) else []
      | None => []
      end
  | _, _ => []
  end.

Definition computeXPath (d : Dom) (element : ref) : string :=
  "/" +:+ join "/" (map (xpathSegment d) (rev (elementPath d (size d) (Some element)))).

(** ** The parent prefix of the specification

    [computeCssSelector], step 3: a parent element whose tag is not the
    document body gives a prefix, its [#id] when it has an id and its
    lowercase tag name otherwise; no parent element, or the body, gives
    none. *)

Definition parentPrefix (d : Dom) (n : NodeRec) : option string :=
  match parentNode n with
  | None => None
  | Some p =>
      match data <$> d !! p with
      | Some (Element tag i _) =>
          if bool_decide (tag = "BODY") then None
          else Some (if bool_decide (i = "") then toLowerCase tag else "#" +:+ i)
      | _ => None
      end
  end.

(** ** Necessary conditions of well-formed locators *)

(** An XPath expression closes every string literal it opens.  A literal
    runs from a quote to the next quote of the same kind. *)
Inductive QuoteState := Outside | InDouble | InSingle.

Definition quote_step (st : QuoteState) (c : ascii) : QuoteState :=
  let n := nat_of_ascii c in
  match st with
  | Outside => if (n =? 34)%nat then InDouble
               else if (n =? 39)%nat then InSingle else Outside
  | InDouble => if (n =? 34)%nat then Outside else InDouble
  | InSingle => if (n =? 39)%nat then Outside else InSingle
  end.

Fixpoint quote_scan (s : string) (st : QuoteState) : QuoteState :=
  match s with
  | EmptyString => st
  | String c r => quote_scan r (quote_step st c)
  end.

Definition xpath_literals_closed (s : string) : bool :=
  match quote_scan s Outside with
  | Outside => true
  | _ => false
  end.

(** In a CSS selector a ['.'] starts a class selector and is followed by
    an identifier.  Selectors that open an escape, a string, an attribute
    block, a function or a comment are not judged by this check. *)
Definition css_opens_context (c : ascii) : bool :=
  let n := nat_of_ascii c in
  (n =? 92)%nat || (n =? 34)%nat || (n =? 39)%nat || (n =? 91)%nat
  || (n =? 40)%nat || (n =? 47)%nat.

Definition css_ident_start (c : ascii) : bool :=
  let n := nat_of_ascii c in
  ((65 <=? n)%nat && (n <=? 90)%nat) || ((97 <=? n)%nat && (n <=? 122)%nat)
  || (n =? 95)%nat || (n =? 45)%nat || (128 <=? n)%nat.

Fixpoint has_context (s : string) : bool :=
  match s with
  | EmptyString => false
  | String c r => css_opens_context c || has_context r
  end.

Fixpoint dots_followed (s : string) : bool :=
  match s with
  | EmptyString => true
  | String c r =>
      (if (nat_of_ascii c =? 46)%nat then
         match r with
         | String c' _ => css_ident_start c'
         | EmptyString => false
         end
       else true)
      && dots_followed r
  end.

Definition css_class_dots_ok (s : string) : bool :=
  has_context s || dots_followed s.

(** ** More example documents *)

(** A detached [<div>] whose id holds a double quote between an [a] and
    a [b]. *)
Definition quoted_id : string := "a" +:+ dquote +:+ "b".

Definition quoted_id_div : Dom :=
  {[ 1%positive := elem "DIV" quoted_id "" None None None ]}.

(** A detached [<div class=" ">]. *)
Definition blank_class_div : Dom :=
  {[ 1%positive := elem "DIV" "" " " None None None ]}.

(** [<div id="toolbar"><div class="btn primary"></div></div>]. *)
Definition toolbar_doc : Dom :=
  list_to_map
    [ (1%positive, elem "DIV" "toolbar" "" None None None);
      (2%positive, elem "DIV" "" "btn primary" (Some 1%positive) None None) ].

(** * The rest of the picker: [content.js] and its consumer [background.js] *)

(** ** [generateTailwindClasses] (background.js, lines 299-326)

    The [styles] object is given by its entries, in the order
    [Object.entries] lists them.  Every key of [tailwindMap] holds [": "],
    which no inherited property name does, so the property read is the
    lookup of an own key. *)

Definition tailwindEntries : list (string * string) :=
  [ ("display: flex", "flex");
    ("justify-content: center", "justify-center");
    ("align-items: center", "items-center");
    ("padding: 8px", "p-2");
    ("padding: 16px", "p-4");
    ("margin: 8px", "m-2");
    ("margin: 16px", "m-4");
    ("border-radius: 4px", "rounded");
    ("border-radius: 8px", "rounded-lg");
    ("background-color: rgb(59, 130, 246)", "bg-blue-500");
    ("color: rgb(255, 255, 255)", "text-white");
    ("font-weight: bold", "font-bold");
    ("font-size: 14px", "text-sm");
    ("font-size: 16px", "text-base");
    ("font-size: 18px", "text-lg") ].

Definition tailwindMap : gmap string string := list_to_map tailwindEntries.

(** The declaration text built from an entry [[prop, value]]. *)
Definition cssDeclarationOf (entry : string * string) : string :=
  entry.1 +:+ ": " +:+ entry.2.

(** The body of the [forEach] callback, on the [suggestions] so far. *)
Definition suggest (suggestions : list string) (entry : string * string)
    : list string :=
  let cssDeclaration := cssDeclarationOf entry in
  if truthy (tailwindMap !! cssDeclaration)
  then suggestions ++ [template (tailwindMap !! cssDeclaration)]
  else suggestions.

Definition generateTailwindClasses (styles : list (string * string)) : string :=
  let suggestions := foldl suggest [] styles in
  if (0 <? length suggestions)%nat then join " " suggestions
  else "Custom styles needed - see original CSS".

(** The properties [extractElementData] captures (content.js, lines
    209-213), in the order it stores them. *)
Definition stylesToCapture : list string :=
  [ "color"; "backgroundColor"; "fontSize"; "fontFamily"; "fontWeight";
    "padding"; "margin"; "border"; "borderRadius"; "display"; "position";
    "width"; "height"; "flexDirection"; "justifyContent"; "alignItems" ].

(** Lines 215-217: [relevantStyles], from [getPropertyValue]. *)
Definition relevantStyles (getPropertyValue : string -> string)
    : list (string * string) :=
  map (fun prop => (prop, getPropertyValue prop)) stylesToCapture.

(** ** Numbers of the host

    Coordinates, scroll offsets and the clock are JavaScript numbers.  The
    picker adds, subtracts, compares and prints them; these operations are
    kept abstract, and [Z] is the instance on which geometry is computed. *)

Class Number (num : Type) := {
  nadd : num -> num -> num;
  nsub : num -> num -> num;
  ngt : num -> num -> bool;
  neq : num -> num -> bool;  (* [===] *)
  nshow : num -> string;    (* the number in a template literal *)
  nlit : Z -> num           (* an integer literal of the source *)
}.

#[global] Instance Z_Number : Number Z := {
  nadd := Z.add;
  nsub := Z.sub;
  ngt := Z.gtb;
  neq := Z.eqb;
  nshow := pretty;
  nlit := fun z => z
}.

(** ** What the page shows of an element *)

Record DOMRect (num : Type) := mkRect {
  rx : num; ry : num; rwidth : num; rheight : num;
  rtop : num; rleft : num; rbottom : num; rright : num
}.
Arguments mkRect {num}.
Arguments rx {num}. Arguments ry {num}.
Arguments rwidth {num}. Arguments rheight {num}.
Arguments rtop {num}. Arguments rleft {num}.
Arguments rbottom {num}. Arguments rright {num}.

(** The window and the rendering of its elements at the time of an event. *)
Record Host (num : Type) := mkHost {
  getBoundingClientRect : ref -> DOMRect num;
  getPropertyValue : ref -> string -> string;  (* of [getComputedStyle] *)
  innerText : ref -> option string;            (* [undefined] off HTML elements *)
  outerHTML : ref -> string;
  attributes : ref -> list (string * string);  (* name and value, in order *)
  scrollX : num; scrollY : num;
  innerWidth : num; innerHeight : num;
  href : string;                               (* [window.location.href] *)
  now : num                                    (* [Date.now()] *)
}.
Arguments getBoundingClientRect {num}. Arguments getPropertyValue {num}.
Arguments innerText {num}. Arguments outerHTML {num}.
Arguments attributes {num}.
Arguments scrollX {num}. Arguments scrollY {num}.
Arguments innerWidth {num}. Arguments innerHeight {num}.
Arguments href {num}. Arguments now {num}.

(** ** [extractElementData] (content.js, lines 203-243) *)

(** [String.prototype.trim], on the ASCII white space and line ends. *)
Definition is_trim_space (c : ascii) : bool :=
  let n := nat_of_ascii c in
  ((9 <=? n)%nat && (n <=? 13)%nat) || (n =? 32)%nat.

Fixpoint trimStart (s : string) : string :=
  match s with
  | EmptyString => EmptyString
  | String c r => if is_trim_space c then trimStart r else s
  end.

Fixpoint trimEnd (s : string) : string :=
  match s with
  | EmptyString => EmptyString
  | String c r =>
      match trimEnd r with
      | EmptyString => if is_trim_space c then EmptyString else String c EmptyString
      | r' => String c r'
      end
  end.

Definition trim (s : string) : string := trimEnd (trimStart s).

(** [element.innerText?.trim() || '']. *)
Definition textOf (innerText : option string) : string :=
  match innerText with
  | Some s => if truthy (Some (trim s)) then trim s else ""
  | None => ""
  end.

(** The [reduce] over [element.attributes]: [acc[attr.name] = attr.value].
    Assigning a string to [__proto__] leaves a plain object as it is. *)
Definition attributesObject (attrs : list (string * string)) : gmap string string :=
  foldl (fun acc attr =>
           if bool_decide (attr.1 = "__proto__") then acc
           else <[attr.1 := attr.2]> acc)
        ∅ attrs.

Record ElementData (num : Type) := mkElementData {
  ed_id : option string;              (* [null] when the id is empty *)
  ed_tag : string;
  ed_classes : list string;
  ed_text : string;
  ed_html : string;
  ed_styles : list (string * string); (* the entries of [relevantStyles] *)
  ed_attributes : gmap string string;
  ed_boundingBox : DOMRect num;
  ed_xpath : option string;
  ed_selector : string
}.
Arguments mkElementData {num}.
Arguments ed_id {num}. Arguments ed_tag {num}. Arguments ed_classes {num}.
Arguments ed_text {num}. Arguments ed_html {num}. Arguments ed_styles {num}.
Arguments ed_attributes {num}. Arguments ed_boundingBox {num}.
Arguments ed_xpath {num}. Arguments ed_selector {num}.

(** [getBoundingClientRect] and [getComputedStyle] want an element. *)
Definition extractElementData {num} (fuel : nat) (h : Host num) (element : ref)
    : M (ElementData num) :=
  e <- deref element ;;
  if is_element e then
    let rect := getBoundingClientRect h element in
    let styles := relevantStyles (getPropertyValue h element) in
    tag <- defined (tagName e) ;;
    xpath <- getXPath fuel element ;;
    selector <- generateSelector element ;;
    ret {| ed_id := if truthy (id e) then id e else None;
           ed_tag := toLowerCase tag;
           ed_classes := classList e;
           ed_text := textOf (innerText h element);
           ed_html := outerHTML h element;
           ed_styles := styles;
           ed_attributes := attributesObject (attributes h element);
           ed_boundingBox :=
             {| rx := rx rect; ry := ry rect;
                rwidth := rwidth rect; rheight := rheight rect;
                rtop := rtop rect; rleft := rleft rect;
                rbottom := rbottom rect; rright := rright rect |};
           ed_xpath := xpath;
           ed_selector := selector |}
  else throw TypeError.

(** ** The picker's state (content.js, lines 1-7 and what it touches)

    Besides the five script variables: the children of the shadow root,
    each with the identity [document.createElement] gave it; the cursor of
    [document.body]; the three items the script keeps in
    [chrome.storage.local]; the messages handed to
    [chrome.runtime.sendMessage]; the pending [setTimeout] callbacks. *)

Inductive Action := discuss | figma | playwright | react.

#[global] Instance Action_eq_dec : EqDecision Action.
Proof. solve_decision. Defined.

Definition actionName (a : Action) : string :=
  match a with
  | discuss => "discuss"
  | figma => "figma"
  | playwright => "playwright"
  | react => "react"
  end.

(** A [data-action] button of the toolbar. *)
Record Button := mkButton {
  data_action : Action;
  textContent : string;
  disabled : bool
}.

Inductive ShadowNode :=
  | StyleNode
  | HighlightNode (cssText : string)
  | ToolbarNode (cssText : string) (buttons : list Button).

Inductive Message (num : Type) :=
  | ElementSelected (element : ElementData num) (pageUrl : string)
  | AiTask (task : string) (element : option (ElementData num)) (pageUrl : string)
  | OpenPopup.
Arguments ElementSelected {num}. Arguments AiTask {num}.
Arguments OpenPopup {num}.

(** What [sendResponse] is called with. *)
Inductive Response (num : Type) :=
  | Toggled (active : bool)
  | SelectedElement (element : option (ElementData num)).
Arguments Toggled {num}. Arguments SelectedElement {num}.

Record StorageItems (num : Type) := mkStorageItems {
  st_selectedElement : ElementData num;
  st_pageUrl : string;
  st_timestamp : num
}.
Arguments mkStorageItems {num}.
Arguments st_selectedElement {num}. Arguments st_pageUrl {num}.
Arguments st_timestamp {num}.

Record Picker (num : Type) := mkPicker {
  isPickerActive : bool;
  highlightedElement : option ref;
  selectedElement : option (ElementData num);
  toolbar : option nat;
  shadowRoot : list (nat * ShadowNode);
  created : nat;
  cursor : string;
  storage : option (StorageItems num);
  sent : list (Message num);
  timers : list (nat * Action * string)
}.
Arguments mkPicker {num}.
Arguments isPickerActive {num}. Arguments highlightedElement {num}.
Arguments selectedElement {num}. Arguments toolbar {num}.
Arguments shadowRoot {num}. Arguments created {num}.
Arguments cursor {num}. Arguments storage {num}.
Arguments sent {num}. Arguments timers {num}.

(** The page at the time of an event, and the fuel for the walks in it. *)
Record Env (num : Type) := mkEnv {
  env_dom : Dom;
  env_host : Host num;
  env_fuel : nat
}.
Arguments mkEnv {num}.
Arguments env_dom {num}. Arguments env_host {num}. Arguments env_fuel {num}.

Definition P (num A : Type) : Type := Picker num -> Outcome A * Picker num.

Definition pret {num A} (a : A) : P num A := fun s => (Ret a, s).

Definition pbind {num A B} (m : P num A) (k : A -> P num B) : P num B :=
  fun s =>
    match m s with
    | (Ret a, s') => k a s'
    | (Throw e, s') => (Throw e, s')
    | (OutOfFuel, s') => (OutOfFuel, s')
    end.

Notation "x <~ m ;; k" := (pbind m (fun x => k))
  (at level 100, m at next level, right associativity).

Definition pget {num} : P num (Picker num) := fun s => (Ret s, s).

Definition pmodify {num} (f : Picker num -> Picker num) : P num unit :=
  fun s => (Ret tt, f s).

(** A computation on the page; the picker's state is not in the page. *)
Definition plift {num A} (m : M A) (d : Dom) : P num A :=
  fun s => ((m d).1, s).

Definition set_isPickerActive {num} (b : bool) (s : Picker num) : Picker num :=
  mkPicker b (highlightedElement s) (selectedElement s) (toolbar s)
    (shadowRoot s) (created s) (cursor s) (storage s) (sent s) (timers s).

Definition set_highlightedElement {num} (v : option ref) (s : Picker num)
    : Picker num :=
  mkPicker (isPickerActive s) v (selectedElement s) (toolbar s)
    (shadowRoot s) (created s) (cursor s) (storage s) (sent s) (timers s).

Definition set_selectedElement {num} (v : option (ElementData num))
    (s : Picker num) : Picker num :=
  mkPicker (isPickerActive s) (highlightedElement s) v (toolbar s)
    (shadowRoot s) (created s) (cursor s) (storage s) (sent s) (timers s).

Definition set_toolbar {num} (v : option nat) (s : Picker num) : Picker num :=
  mkPicker (isPickerActive s) (highlightedElement s) (selectedElement s) v
    (shadowRoot s) (created s) (cursor s) (storage s) (sent s) (timers s).

Definition set_shadowRoot {num} (v : list (nat * ShadowNode)) (s : Picker num)
    : Picker num :=
  mkPicker (isPickerActive s) (highlightedElement s) (selectedElement s)
    (toolbar s) v (created s) (cursor s) (storage s) (sent s) (timers s).

Definition set_created {num} (v : nat) (s : Picker num) : Picker num :=
  mkPicker (isPickerActive s) (highlightedElement s) (selectedElement s)
    (toolbar s) (shadowRoot s) v (cursor s) (storage s) (sent s) (timers s).

Definition set_cursor {num} (v : string) (s : Picker num) : Picker num :=
  mkPicker (isPickerActive s) (highlightedElement s) (selectedElement s)
    (toolbar s) (shadowRoot s) (created s) v (storage s) (sent s) (timers s).

Definition set_storage {num} (v : option (StorageItems num)) (s : Picker num)
    : Picker num :=
  mkPicker (isPickerActive s) (highlightedElement s) (selectedElement s)
    (toolbar s) (shadowRoot s) (created s) (cursor s) v (sent s) (timers s).

Definition set_sent {num} (v : list (Message num)) (s : Picker num)
    : Picker num :=
  mkPicker (isPickerActive s) (highlightedElement s) (selectedElement s)
    (toolbar s) (shadowRoot s) (created s) (cursor s) (storage s) v (timers s).

Definition set_timers {num} (v : list (nat * Action * string)) (s : Picker num)
    : Picker num :=
  mkPicker (isPickerActive s) (highlightedElement s) (selectedElement s)
    (toolbar s) (shadowRoot s) (created s) (cursor s) (storage s) (sent s) v.

(** [chrome.runtime.sendMessage]. *)
Definition sendMessage {num} (m : Message num) : P num unit :=
  pmodify (fun s => set_sent (sent s ++ [m]) s).

(** [document.createElement]: a new identity. *)
Definition createElement {num} : P num nat :=
  fun s => (Ret (created s), set_created (S (created s)) s).

(** [shadowRoot.appendChild]. *)
Definition appendChild {num} (i : nat) (n : ShadowNode) : P num unit :=
  pmodify (fun s => set_shadowRoot (shadowRoot s ++ [(i, n)]) s).

(** The children left when the first one that satisfies [p] is removed. *)
Fixpoint remove_first {A} (p : A -> bool) (l : list A) : list A :=
  match l with
  | [] => []
  | c :: r => if p c then r else c :: remove_first p r
  end.

Definition is_highlight (c : nat * ShadowNode) : bool :=
  match c.2 with
  | HighlightNode _ => true
  | _ => false
  end.

Definition is_toolbar (c : nat * ShadowNode) : bool :=
  match c.2 with
  | ToolbarNode _ _ => true
  | _ => false
  end.

(** ** The picker's functions (content.js) *)

(** Lines 177-183.  Only a highlight box has the class
    [fuzepicker-highlight]; [querySelector] finds the first one. *)
Definition clearHighlight {num} : P num unit :=
  _ <~ pmodify (fun s => set_shadowRoot (remove_first is_highlight (shadowRoot s)) s) ;;
  pmodify (set_highlightedElement None).

(** Lines 350-355. *)
Definition hideToolbar {num} : P num unit :=
  s <~ pget ;;
  match toolbar s with
  | Some i =>
      _ <~ pmodify (fun s => set_shadowRoot
                     (remove_first (fun c => (c.1 =? i)%nat) (shadowRoot s)) s) ;;
      pmodify (set_toolbar None)
  | None => pret tt
  end.

(** Lines 118-127. *)
Definition togglePicker {num} : P num unit :=
  _ <~ pmodify (fun s => set_isPickerActive (negb (isPickerActive s)) s) ;;
  s <~ pget ;;
  _ <~ (if negb (isPickerActive s)
        then (_ <~ clearHighlight ;; hideToolbar)
        else pret tt) ;;
  pmodify (fun s => set_cursor (if isPickerActive s then "crosshair" else "default") s).

(** Lines 160-175. *)
Definition highlightCss {num} `{Number num} (h : Host num) (rect : DOMRect num)
    : string :=
  "
    top: " +:+ nshow (nadd (rtop rect) (scrollY h)) +:+ "px;
    left: " +:+ nshow (nadd (rleft rect) (scrollX h)) +:+ "px;
    width: " +:+ nshow (rwidth rect) +:+ "px;
    height: " +:+ nshow (rheight rect) +:+ "px;
  ".

Definition highlightElement {num} `{Number num} (env : Env num) (element : ref)
    : P num unit :=
  _ <~ clearHighlight ;;
  _ <~ pmodify (set_highlightedElement (Some element)) ;;
  let rect := getBoundingClientRect (env_host env) element in
  highlight <~ createElement ;;
  appendChild highlight (HighlightNode (highlightCss (env_host env) rect)).

(** [Element.closest] with the selector [#<idv>]: the element itself, then
    its parent elements. *)
Fixpoint closest (fuel : nat) (idv : string) (node : option ref)
    : M (option ref) :=
  match node with
  | None => ret None
  | Some r =>
      match fuel with
      | O => out_of_fuel
      | S fuel' =>
          n <- deref r ;;
          if bool_decide (id n = Some idv) then ret (Some r)
          else
            p <- parentElement n ;;
            closest fuel' idv p
      end
  end.

(** [event.target.closest('#fuzepicker-shadow-host')]; only elements have
    the method. *)
Definition targetInPicker (fuel : nat) (target : ref) : M bool :=
  n <- deref target ;;
  if is_element n then
    c <- closest fuel "fuzepicker-shadow-host" (Some target) ;;
    ret (match c with Some _ => true | None => false end)
  else throw TypeError.

(** Lines 185-201. *)
Definition selectElement {num} `{Number num} (env : Env num) (element : ref)
    : P num unit :=
  data <~ plift (extractElementData (env_fuel env) (env_host env) element)
            (env_dom env) ;;
  _ <~ pmodify (set_selectedElement (Some data)) ;;
  _ <~ pmodify (set_storage
                  (Some (mkStorageItems data (href (env_host env))
                           (now (env_host env))))) ;;
  sendMessage (ElementSelected data (href (env_host env))).

(** Lines 310-321: where the toolbar goes. *)
Definition toolbarTop {num} `{Number num} (h : Host num) (rect : DOMRect num)
    : num :=
  let toolbarHeight := nlit 50 in
  let top := nadd (nadd (rbottom rect) (scrollY h)) (nlit 10) in
  if ngt (nadd top toolbarHeight) (nadd (innerHeight h) (scrollY h))
  then nsub (nsub (nadd (rtop rect) (scrollY h)) toolbarHeight) (nlit 10)
  else top.

Definition toolbarLeft {num} `{Number num} (h : Host num) (rect : DOMRect num)
    : num :=
  let toolbarWidth := nlit 400 in
  let left := nadd (rleft rect) (scrollX h) in
  if ngt (nadd left toolbarWidth) (innerWidth h)
  then nsub (nsub (innerWidth h) toolbarWidth) (nlit 20)
  else left.

Definition toolbarCss {num} `{Number num} (h : Host num) (rect : DOMRect num)
    : string :=
  "
    top: " +:+ nshow (toolbarTop h rect) +:+ "px;
    left: " +:+ nshow (toolbarLeft h rect) +:+ "px;
  ".

(** Lines 328-334: the four [data-action] buttons of [innerHTML]. *)
Definition toolbarButtons : list Button :=
  [ mkButton discuss "💬 Discuss" false;
    mkButton figma "🎨 Figma" false;
    mkButton playwright "🧪 Test" false;
    mkButton react "⚛️ React" false ].

(** Lines 302-348. *)
Definition showToolbar {num} `{Number num} (env : Env num) (element : ref)
    : P num unit :=
  _ <~ hideToolbar ;;
  let rect := getBoundingClientRect (env_host env) element in
  t <~ createElement ;;
  _ <~ pmodify (set_toolbar (Some t)) ;;
  appendChild t (ToolbarNode (toolbarCss (env_host env) rect) toolbarButtons).

(** Lines 129-149.  The result of [handleClick] tells whether the click was
    kept from the page ([preventDefault] and [stopPropagation]). *)
Definition handleMouseOver {num} `{Number num} (env : Env num) (target : ref)
    : P num unit :=
  s <~ pget ;;
  if negb (isPickerActive s) then pret tt
  else
    own <~ plift (targetInPicker (env_fuel env) target) (env_dom env) ;;
    if (own : bool) then pret tt else highlightElement env target.

Definition handleMouseOut {num} (env : Env num) (target : ref) : P num unit :=
  s <~ pget ;;
  if negb (isPickerActive s) then pret tt
  else
    own <~ plift (targetInPicker (env_fuel env) target) (env_dom env) ;;
    if (own : bool) then pret tt else clearHighlight.

Definition handleClick {num} `{Number num} (env : Env num) (target : ref)
    : P num bool :=
  s <~ pget ;;
  if negb (isPickerActive s) then pret false
  else
    own <~ plift (targetInPicker (env_fuel env) target) (env_dom env) ;;
    if (own : bool) then pret false
    else
      _ <~ selectElement env target ;;
      _ <~ showToolbar env target ;;
      pret true.

(** Lines 151-158. *)
Definition handleKeyDown {num} (key : string) : P num unit :=
  if bool_decide (key = "Escape") then
    s <~ pget ;;
    _ <~ (if isPickerActive s then togglePicker else pret tt) ;;
    hideToolbar
  else pret tt.

(** Lines 14-23: the listener of [chrome.runtime.onMessage]. *)
Definition onMessage {num} (action : string) : P num (option (Response num)) :=
  if bool_decide (action = "togglePicker") then
    _ <~ togglePicker ;;
    s <~ pget ;;
    pret (Some (Toggled (isPickerActive s)))
  else if bool_decide (action = "getSelectedElement") then
    s <~ pget ;;
    pret (Some (SelectedElement (selectedElement s)))
  else pret None.

(** The first button for [a] changed by [f], in a button list and in the
    toolbar [i] of a child list. *)
Fixpoint updateButton (a : Action) (f : Button -> Button) (bs : list Button)
    : list Button :=
  match bs with
  | [] => []
  | b :: r =>
      if bool_decide (data_action b = a) then f b :: r
      else b :: updateButton a f r
  end.

Definition updateToolbarButton (i : nat) (a : Action) (f : Button -> Button)
    (children : list (nat * ShadowNode)) : list (nat * ShadowNode) :=
  map (fun c : nat * ShadowNode =>
         match c.2 with
         | ToolbarNode css bs =>
             if (c.1 =? i)%nat then (c.1, ToolbarNode css (updateButton a f bs))
             else c
         | _ => c
         end) children.

(** [toolbar.querySelector('[data-action=...]')], for the toolbar [i] in
    the shadow root; [None] when [i] is not a toolbar there. *)
Definition findButton (i : nat) (a : Action) (children : list (nat * ShadowNode))
    : option (option Button) :=
  match list_find (fun c : nat * ShadowNode => c.1 = i) children with
  | Some (_, (_, ToolbarNode _ bs)) =>
      Some (snd <$> list_find (fun b => data_action b = a) bs)
  | _ => None
  end.

(** Lines 357-381.  The handler of a [data-action] button; [a] is the
    action of the button that was clicked.  The model keeps a toolbar only
    while it is in the shadow root: a [toolbar] variable that refers to one
    that is not there is a [DanglingRef]. *)
Definition handleToolbarAction {num} (env : Env num) (a : Action) : P num unit :=
  s <~ pget ;;
  _ <~ sendMessage (AiTask (actionName a) (selectedElement s)
                      (href (env_host env))) ;;
  match toolbar s with
  | None => fun s => (Throw TypeError, s)
  | Some i =>
      match findButton i a (shadowRoot s) with
      | None => fun s => (Throw DanglingRef, s)
      | Some found =>
          _ <~ match found with
               | Some btn =>
                   let originalText := textContent btn in
                   _ <~ pmodify (fun s => set_shadowRoot
                          (updateToolbarButton i a
                             (fun _ => mkButton a "⏳ Processing..." true)
                             (shadowRoot s)) s) ;;
                   pmodify (fun s =>
                              set_timers (timers s ++ [(i, a, originalText)]) s)
               | None => pret tt
               end ;;
          _ <~ hideToolbar ;;
          sendMessage OpenPopup
      end
  end.

(** Lines 372-375: the [setTimeout] callback that is due first. *)
Definition timerFired {num} : P num unit :=
  s <~ pget ;;
  match timers s with
  | [] => pret tt
  | (i, a, originalText) :: rest =>
      _ <~ pmodify (set_timers rest) ;;
      pmodify (fun s => set_shadowRoot
                 (updateToolbarButton i a
                    (fun b => mkButton (data_action b) originalText false)
                    (shadowRoot s)) s)
  end.

(** ** Events *)

Inductive Event :=
  | MouseOver (target : ref)
  | MouseOut (target : ref)
  | Click (target : ref)
  | KeyDown (key : string)
  | RuntimeMessage (action : string)
  | ToolbarCloseClick
  | ToolbarActionClick (a : Action)
  | TimerFired.

(** The state an event leaves, whether its handler returned or threw. *)
Definition step {num} `{Number num} (env : Env num) (ev : Event)
    (s : Picker num) : Picker num :=
  match ev with
  | MouseOver t => (handleMouseOver env t s).2
  | MouseOut t => (handleMouseOut env t s).2
  | Click t => (handleClick env t s).2
  | KeyDown k => (handleKeyDown k s).2
  | RuntimeMessage a => (onMessage a s).2
  | ToolbarCloseClick => (hideToolbar s).2
  | ToolbarActionClick a => (handleToolbarAction env a s).2
  | TimerFired => (timerFired s).2
  end.

Definition run {num} `{Number num} (evs : list (Env num * Event))
    (s : Picker num) : Picker num :=
  foldl (fun s ev => step ev.1 ev.2 s) s evs.

(** Lines 9-45: the state [initializePicker] leaves.  [createShadowDom]
    creates the host and the style sheet, and the style sheet is the one
    child of the shadow root. *)
Definition initialPicker {num} (cursor0 : string)
    (storage0 : option (StorageItems num)) : Picker num :=
  mkPicker false None None None [(1, StyleNode)] 2 cursor0 storage0 [] [].

(** ** The shape the shadow root keeps

    After the style sheet come at most one highlight box and at most one
    toolbar, in either order; the box is there exactly when
    [highlightedElement] is set and the toolbar exactly when [toolbar]
    refers to it; a toolbar that is shown has the buttons it was created
    with; the pending timers belong to toolbars that are gone. *)
Definition shadow_rest_ok (highlighted : option ref) (tb : option nat)
    (made : nat) (rest : list (nat * ShadowNode)) : Prop :=
  match rest with
  | [] => highlighted = None /\ tb = None
  | [(i, HighlightNode _)] =>
      is_Some highlighted /\ tb = None /\ 2 <= i < made
  | [(j, ToolbarNode _ bs)] =>
      highlighted = None /\ tb = Some j /\ 2 <= j < made
      /\ bs = toolbarButtons
  | [(i, HighlightNode _); (j, ToolbarNode _ bs)]
  | [(j, ToolbarNode _ bs); (i, HighlightNode _)] =>
      is_Some highlighted /\ tb = Some j /\ i <> j
      /\ 2 <= i < made /\ 2 <= j < made /\ bs = toolbarButtons
  | _ => False
  end.

Definition timer_ok (tb : option nat) (made : nat) (t : nat * Action * string)
    : Prop :=
  t.1.1 < made /\ tb <> Some t.1.1.

Definition PickerInv {num} (s : Picker num) : Prop :=
  exists rest,
    shadowRoot s = (1, StyleNode) :: rest
    /\ shadow_rest_ok (highlightedElement s) (toolbar s) (created s) rest
    /\ 2 <= created s
    /\ (isPickerActive s = false -> rest = [])
    /\ (isPickerActive s = true -> cursor s = "crosshair")
    /\ Forall (timer_ok (toolbar s) (created s)) (timers s).

(** ** The fallback answers (background.js, lines 157-297)

    A template literal is its fixed text with a value in each hole. *)
Fixpoint fill (text holes : list string) : string :=
  match text, holes with
  | t :: text', h :: holes' => t +:+ h +:+ fill text' holes'
  | t :: _, [] => t
  | [], _ => ""
  end.

(** [String.prototype.toUpperCase], on the ASCII letters. *)
Definition upper_ascii (c : ascii) : ascii :=
  let n := nat_of_ascii c in
  if (97 <=? n)%nat && (n <=? 122)%nat then ascii_of_nat (n - 32) else c.

Fixpoint toUpperCase (s : string) : string :=
  match s with
  | EmptyString => EmptyString
  | String c r => String (upper_ascii c) (toUpperCase r)
  end.

(** [tag.charAt(0).toUpperCase() + tag.slice(1)]. *)
Definition capitalized (tag : string) : string :=
  match tag with
  | EmptyString => EmptyString
  | String c r => String (upper_ascii c) r
  end.

(** [element.styles.<key>], on the entries of the object. *)
Definition styleValue (styles : list (string * string)) (key : string)
    : option string :=
  (list_to_map styles : gmap string string) !! key.

(** [v || fallback]. *)
Definition orElse (v : option string) (fallback : string) : string :=
  if truthy v then template v else fallback.

Definition discussText : list string :=
  [ ("**Element Analysis: ");
    ("**

**Design Assessment:**
- Element appears to be a ");
    (" with ");
    (" CSS classes
- Text content: " +:+ dquote);
    (dquote +:+ "
- Current styling includes: ");
    ("

**Suggestions:**
- Consider accessibility improvements (ARIA labels, semantic markup)
- Evaluate responsive design across different screen sizes
- Check color contrast ratios for text readability
- Ensure proper focus management for keyboard navigation

**Questions for Team:**
- Does this element align with the design system?
- Are there any specific interaction requirements?
- Should this component be reusable across other pages?") ].

Definition figmaText : list string :=
  [ ("**Figma Component Structure:**

```json
{
  " +:+ dquote +:+ "type" +:+ dquote +:+ ": " +:+ dquote +:+ "FRAME" +:+ dquote +:+ ",
  " +:+ dquote +:+ "name" +:+ dquote +:+ ": " +:+ dquote);
    ("_Component" +:+ dquote +:+ ",
  " +:+ dquote +:+ "fills" +:+ dquote +:+ ": [{" +:+ dquote +:+ "type" +:+ dquote +:+ ": " +:+ dquote +:+ "SOLID" +:+ dquote +:+ ", " +:+ dquote +:+ "color" +:+ dquote +:+ ": {" +:+ dquote +:+ "r" +:+ dquote +:+ ": 1, " +:+ dquote +:+ "g" +:+ dquote +:+ ": 1, " +:+ dquote +:+ "b" +:+ dquote +:+ ": 1}}],
  " +:+ dquote +:+ "children" +:+ dquote +:+ ": [
    {
      " +:+ dquote +:+ "type" +:+ dquote +:+ ": " +:+ dquote +:+ "TEXT" +:+ dquote +:+ ",
      " +:+ dquote +:+ "name" +:+ dquote +:+ ": " +:+ dquote +:+ "Text_Layer" +:+ dquote +:+ ",
      " +:+ dquote +:+ "characters" +:+ dquote +:+ ": " +:+ dquote);
    (dquote +:+ ",
      " +:+ dquote +:+ "style" +:+ dquote +:+ ": {
        " +:+ dquote +:+ "fontSize" +:+ dquote +:+ ": ");
    (",
        " +:+ dquote +:+ "fontFamily" +:+ dquote +:+ ": " +:+ dquote);
    (dquote +:+ ",
        " +:+ dquote +:+ "fontWeight" +:+ dquote +:+ ": ");
    ("
      }
    }
  ],
  " +:+ dquote +:+ "layoutMode" +:+ dquote +:+ ": " +:+ dquote +:+ "VERTICAL" +:+ dquote +:+ ",
  " +:+ dquote +:+ "primaryAxisSizingMode" +:+ dquote +:+ ": " +:+ dquote +:+ "AUTO" +:+ dquote +:+ ",
  " +:+ dquote +:+ "counterAxisSizingMode" +:+ dquote +:+ ": " +:+ dquote +:+ "AUTO" +:+ dquote +:+ "
}
```

**Implementation Notes:**
- Convert CSS styles to Figma properties
- Use Auto Layout for responsive behavior
- Apply component variants for different states") ].

Definition playwrightText : list string :=
  [ ("**Playwright Test:**

```typescript
import { test, expect } from '@playwright/test';

test('");
    (" element interactions', async ({ page }) => {
  await page.goto('");
    ("');
  
  // Locate element
  const element = page.locator('");
    ("');
  
  // Visibility check
  await expect(element).toBeVisible();
  
  // Text content check
  ");
    ("
  
  // Accessibility check
  await expect(element).toBeAttached();
  
  // Interaction test (if applicable)
  ");
    ("
  
  // Style verification
  await expect(element).toHaveCSS('display', '");
    ("');
});
```

**Additional Test Considerations:**
- Add responsive design tests
- Include keyboard navigation tests
- Test with screen readers
- Verify loading states if applicable") ].

Definition reactText : list string :=
  [ ("**React Component:**

```tsx
import React from 'react';

interface ");
    ("ComponentProps {
  children?: React.ReactNode;
  className?: string;
  ");
    ("
}

const ");
    ("Component: React.FC<");
    ("ComponentProps> = ({
  children,
  className = '',
  ");
    ("
  ...props
}) => {
  return (
    <");
    ("
      className={`");
    (" ${className}`}
      {...props}
    >
      ");
    ("
    </");
    (">
  );
};

export default ");
    ("Component;
```

**Usage Example:**
```tsx
<");
    ("Component");
    (" />
```

**Tailwind Classes (equivalent styles):**
");
    ("") ].

(** What [responses[task] || {...}] evaluates to: one of the four answers,
    the answer for an unsupported task, or, for a task that names a member
    every object inherits, that member. *)
Inductive FallbackResponse :=
  | TaskOutput (task output : string)
  | InheritedMember (name : string).

Definition objectPrototypeMembers : list string :=
  [ "constructor"; "__defineGetter__"; "__defineSetter__"; "hasOwnProperty";
    "__lookupGetter__"; "__lookupSetter__"; "isPrototypeOf";
    "propertyIsEnumerable"; "toString"; "valueOf"; "__proto__";
    "toLocaleString" ].

Inductive Thrown :=
  | ReferenceError (name : string)
  | NullAccess.     (* the [TypeError] of a property read on [null] *)

Inductive Result (A : Type) :=
  | Ok (a : A)
  | Err (e : Thrown).
Arguments Ok {A}. Arguments Err {A}.

(** The function has the parameters [task] and [element]; [pageUrl], which
    the third template reads, is none of them and no variable of
    background.js: [pageUrlGlobal] is what a global of that name would
    show, if there is one.  The values of [responses] are built in order,
    before the look-up. *)
Definition getFallbackAiResponse {num} (pageUrlGlobal : option string)
    (task : string) (element : ElementData num) : Result FallbackResponse :=
  let tag := ed_tag element in
  let text := ed_text element in
  let styles := ed_styles element in
  let hasText := truthy (Some text) in
  let discussOutput :=
    fill discussText
      [ tag; tag; pretty (length (ed_classes element)); text;
        join ", " (styles.*1) ] in
  let figmaOutput :=
    fill figmaText
      [ toUpperCase tag; text;
        orElse (styleValue styles "fontSize") "16";
        orElse (styleValue styles "fontFamily") "Inter";
        orElse (styleValue styles "fontWeight") "400" ] in
  match pageUrlGlobal with
  | None => Err (ReferenceError "pageUrl")
  | Some pageUrl =>
      let playwrightOutput :=
        fill playwrightText
          [ tag; pageUrl; ed_selector element;
            (if hasText
             then "await expect(element).toContainText('" +:+ text +:+ "');"
             else "// No text content to verify");
            (if bool_decide (tag = "button") || bool_decide (tag = "a")
             then "
  await element.click();
  // Add assertions for post-click behavior
  "
             else "// No standard interactions for this element type");
            template (styleValue styles "display") ] in
      let reactOutput :=
        fill reactText
          [ capitalized tag;
            (if hasText then "text?: string;" else "");
            capitalized tag; capitalized tag;
            (if hasText then "text = '" +:+ text +:+ "'," else "");
            tag;
            join " " (ed_classes element);
            (if hasText then "{text}" else "{children}");
            tag;
            capitalized tag; capitalized tag;
            (if hasText then " text=" +:+ dquote +:+ text +:+ dquote else "");
            generateTailwindClasses styles ] in
      Ok (if bool_decide (task = "discuss") then TaskOutput "discuss" discussOutput
          else if bool_decide (task = "figma") then TaskOutput "figma" figmaOutput
          else if bool_decide (task = "playwright")
               then TaskOutput "playwright" playwrightOutput
          else if bool_decide (task = "react") then TaskOutput "react" reactOutput
          else if bool_decide (task ∈ objectPrototypeMembers)
               then InheritedMember task
          else TaskOutput task "Task not supported in fallback mode.")
  end.

(** ** The service worker's state (background.js, lines 4-6) *)

Inductive AiOutput :=
  | FromBackend (json : string)          (* what [response.json()] gave *)
  | FromFallback (r : FallbackResponse).

Record Selection (num : Type) := mkSelection {
  sel_id : string;
  sel_element : ElementData num;
  sel_pageUrl : string;
  sel_tabId : num;
  sel_timestamp : num;
  sel_comments : list string;
  sel_aiOutputs : gmap string AiOutput
}.
Arguments mkSelection {num}.
Arguments sel_id {num}. Arguments sel_element {num}.
Arguments sel_pageUrl {num}. Arguments sel_tabId {num}.
Arguments sel_timestamp {num}. Arguments sel_comments {num}.
Arguments sel_aiOutputs {num}.

Record QueuedTask (num : Type) := mkQueuedTask {
  q_taskId : string;
  q_task : string;
  q_element : option (ElementData num);
  q_pageUrl : string;
  q_tabId : num
}.
Arguments mkQueuedTask {num}.
Arguments q_taskId {num}. Arguments q_task {num}. Arguments q_element {num}.
Arguments q_pageUrl {num}. Arguments q_tabId {num}.

(** [currentSelections] is a [Map]: its entries in insertion order.
    [console] holds the first argument of each [console.log] and
    [console.error]; [dataUpdated] counts the messages of
    [notifyPopupUpdate]. *)
Record Background (num : Type) := mkBackground {
  currentSelections : list (string * Selection num);
  aiTaskQueue : list (QueuedTask num);
  console : list string;
  dataUpdated : nat
}.
Arguments mkBackground {num}.
Arguments currentSelections {num}. Arguments aiTaskQueue {num}.
Arguments console {num}. Arguments dataUpdated {num}.

(** [Map.prototype.set]: the value of an existing key is replaced where it
    is, a new key goes last. *)
Fixpoint mapSet {V} (k : string) (v : V) (m : list (string * V))
    : list (string * V) :=
  match m with
  | [] => [(k, v)]
  | (k', v') :: r =>
      if bool_decide (k' = k) then (k, v) :: r else (k', v') :: mapSet k v r
  end.

(** [Map.prototype.get]. *)
Definition mapGet {V} (k : string) (m : list (string * V)) : option V :=
  snd <$> (snd <$> list_find (fun e : string * V => e.1 = k) m).

(** Line 48: [`${tabId}_${Date.now()}`]. *)
Definition selectionId {num} `{Number num} (tabId t : num) : string :=
  nshow tabId +:+ "_" +:+ nshow t.

(** Lines 44-67, up to the [await]: the selection is stored before the
    backend is asked.  [sender] is [sender.tab.id], when the sender is a
    tab; [t1] and [t2] are the two readings of the clock. *)
Definition handleElementSelected {num} `{Number num}
    (element : ElementData num) (pageUrl : string) (sender : option num)
    (t1 t2 : num) (s : Background num) : Result unit * Background num :=
  match sender with
  | None => (Err NullAccess, s)
  | Some tabId =>
      let id := selectionId tabId t1 in
      (Ok tt,
       mkBackground
         (mapSet id (mkSelection id element pageUrl tabId t2 [] ∅)
            (currentSelections s))
         (aiTaskQueue s) (console s) (dataUpdated s))
  end.

(** Lines 60-66, after the [await]: the outcome of the request is logged
    and nothing else. *)
Definition elementSaved {num} (saved : bool) (s : Background num)
    : Background num :=
  mkBackground (currentSelections s) (aiTaskQueue s)
    (console s ++ (if saved then ["Element saved to backend"]
                   else ["Backend save failed:";
                         "Failed to save element to backend:"]))
    (dataUpdated s).

(** Line 31: the answer to [getSelections]. *)
Definition getSelections {num} (s : Background num) : list (Selection num) :=
  (currentSelections s).*2.

(** What the request of [processAiTask] came to: a reply whose JSON was
    read, or anything else (the request failed, the status was not ok, the
    body was no JSON). *)
Inductive AiReply :=
  | Replied (json : string)
  | Failed.

(** Lines 99-128.  [generateAiPrompt] reads [element.tag] before the
    request is made. *)
Definition processAiTask {num} (pageUrlGlobal : option string) (task : string)
    (element : option (ElementData num)) (reply : AiReply)
    : Result AiOutput * list string :=
  match element with
  | None => (Err NullAccess, [])
  | Some el =>
      match reply with
      | Replied json => (Ok (FromBackend json), [])
      | Failed =>
          (match getFallbackAiResponse pageUrlGlobal task el with
           | Ok r => Ok (FromFallback r)
           | Err e => Err e
           end,
           ["API call failed, using fallback:"])
      end
  end.

(** Lines 69-79, up to the [await]. *)
Definition handleAiTask {num} `{Number num} (task : string)
    (element : option (ElementData num)) (pageUrl : string)
    (sender : option num) (t : num) (s : Background num)
    : Result unit * Background num :=
  match sender with
  | None => (Err NullAccess, s)
  | Some tabId =>
      let taskId := nshow tabId +:+ "_" +:+ task +:+ "_" +:+ nshow t in
      (Ok tt,
       mkBackground (currentSelections s)
         (aiTaskQueue s ++ [mkQueuedTask taskId task element pageUrl tabId])
         (console s ++ ["Processing AI task: " +:+ task])
         (dataUpdated s))
  end.

(** [selection.aiOutputs[task] = result]; a [__proto__] key is not set. *)
Definition setAiOutput {num} (task : string) (result : AiOutput)
    (sel : Selection num) : Selection num :=
  mkSelection (sel_id sel) (sel_element sel) (sel_pageUrl sel) (sel_tabId sel)
    (sel_timestamp sel) (sel_comments sel)
    (if bool_decide (task = "__proto__") then sel_aiOutputs sel
     else <[task := result]> (sel_aiOutputs sel)).

(** The first selection of the tab with the same [html]; the selection is
    changed where it is in the map. *)
Fixpoint updateFirst {A} (p : A -> bool) (f : A -> A) (l : list (string * A))
    : list (string * A) :=
  match l with
  | [] => []
  | (k, a) :: r =>
      if p a then (k, f a) :: r else (k, a) :: updateFirst p f r
  end.

(** Lines 80-96, from the [await] on, for the call that was made with
    [task], [element] and the tab [tabId]. *)
Definition aiTaskSettled {num} `{Number num} (pageUrlGlobal : option string)
    (task : string) (element : option (ElementData num)) (tabId : num)
    (reply : AiReply) (s : Background num) : Background num :=
  let '(result, logged) := processAiTask pageUrlGlobal task element reply in
  match result, element with
  | Ok result, Some el =>
      let matches (sel : Selection num) :=
        neq (sel_tabId sel) tabId
        && bool_decide (ed_html (sel_element sel) = ed_html el) in
      let selections :=
        match list_find (fun e : string * Selection num => matches e.2 = true)
                (currentSelections s) with
        | Some (_, (_, sel)) =>
            mapSet (sel_id sel) (setAiOutput task result sel)
              (updateFirst matches (setAiOutput task result)
                 (currentSelections s))
        | None => currentSelections s
        end in
      mkBackground selections (aiTaskQueue s) (console s ++ logged)
        (S (dataUpdated s))
  | _, _ =>
      mkBackground (currentSelections s) (aiTaskQueue s)
        (console s ++ logged ++ ["AI task " +:+ task +:+ " failed:"])
        (dataUpdated s)
  end.

(** The messages and settled requests the service worker handles. *)
Inductive BgEvent (num : Type) :=
  | ElementSelectedMsg (element : ElementData num) (pageUrl : string)
      (sender : option num) (t1 t2 : num)
  | ElementSaveSettled (saved : bool)
  | AiTaskMsg (task : string) (element : option (ElementData num))
      (pageUrl : string) (sender : option num) (t : num)
  | AiTaskSettled (task : string) (element : option (ElementData num))
      (tabId : num) (reply : AiReply).
Arguments ElementSelectedMsg {num}. Arguments ElementSaveSettled {num}.
Arguments AiTaskMsg {num}. Arguments AiTaskSettled {num}.

Definition bgStep {num} `{Number num} (pageUrlGlobal : option string)
    (ev : BgEvent num) (s : Background num) : Background num :=
  match ev with
  | ElementSelectedMsg element pageUrl sender t1 t2 =>
      (handleElementSelected element pageUrl sender t1 t2 s).2
  | ElementSaveSettled saved => elementSaved saved s
  | AiTaskMsg task element pageUrl sender t =>
      (handleAiTask task element pageUrl sender t s).2
  | AiTaskSettled task element tabId reply =>
      aiTaskSettled pageUrlGlobal task element tabId reply s
  end.

Definition bgRun {num} `{Number num} (pageUrlGlobal : option string)
    (evs : list (BgEvent num)) (s : Background num) : Background num :=
  foldl (fun s ev => bgStep pageUrlGlobal ev s) s evs.

Definition initialBackground {num} : Background num := mkBackground [] [] [] 0.

(** Every selection is stored under its own [id], and no key occurs twice. *)
Definition WellKeyed {num} (s : Background num) : Prop :=
  NoDup ((currentSelections s).*1)
  /\ Forall (fun e : string * Selection num => sel_id e.2 = e.1)
       (currentSelections s).

(** The characters of a printed integer: digits and the sign. *)
Definition is_numeral_char (c : ascii) : bool :=
  let n := nat_of_ascii c in
  ((48 <=? n)%nat && (n <=? 57)%nat) || (n =? 45)%nat.

Fixpoint string_forall (p : ascii -> bool) (s : string) : bool :=
  match s with
  | EmptyString => true
  | String c r => p c && string_forall p r
  end.

(** ** An example page

    [#document > html > body > (button#save, div.card > span, the shadow
    host)], shown in an 800 by 600 window scrolled down by 40. *)
Definition page_doc : Dom :=
  list_to_map
    [ (1%positive, mkNode (Other DOCUMENT_NODE "#document") None None None);
      (2%positive, elem "HTML" "" "" (Some 1%positive) None None);
      (3%positive, elem "BODY" "" "" (Some 2%positive) None None);
      (4%positive, elem "BUTTON" "save" "btn primary" (Some 3%positive) None
                     (Some 5%positive));
      (5%positive, elem "DIV" "" "card" (Some 3%positive) (Some 4%positive)
                     (Some 7%positive));
      (6%positive, elem "SPAN" "" "" (Some 5%positive) None None);
      (7%positive, elem "DIV" "fuzepicker-shadow-host" "" (Some 3%positive)
                     (Some 5%positive) None) ].

Definition page_host : Host Z :=
  {| getBoundingClientRect := fun _ => mkRect 10 20 100 30 20 10 50 110;
     getPropertyValue := fun _ prop =>
       if bool_decide (prop = "display") then "flex" else "";
     innerText := fun _ => Some "  Save ";
     outerHTML := fun _ => "<span></span>";
     attributes := fun _ => [("class", "card")];
     scrollX := 0; scrollY := 40;
     innerWidth := 800; innerHeight := 600;
     href := "https://example.org/";
     now := 1700000000000 |}%Z.

Definition page_env : Env Z := mkEnv page_doc page_host 7.

(** The picker, switched on. *)
Definition picker_on : Picker Z :=
  run [(page_env, RuntimeMessage "togglePicker")] (initialPicker "" None).

(** What [extractElementData] gives for the [span] of the page. *)
Definition page_span : ElementData Z :=
  mkElementData None "span" [] "Save" "<span></span>"
    [("color", ""); ("backgroundColor", ""); ("fontSize", "");
     ("fontFamily", ""); ("fontWeight", ""); ("padding", ""); ("margin", "");
     ("border", ""); ("borderRadius", ""); ("display", "flex");
     ("position", ""); ("width", ""); ("height", ""); ("flexDirection", "");
     ("justifyContent", ""); ("alignItems", "")]
    {[ "class" := "card" ]}
    (mkRect 10 20 100 30 20 10 50 110)%Z
    (Some "/html/body/div[1]/span") "div > span".

(** The service worker after the [span] was selected in tab 7 and the
    backend could not be reached. *)
Definition background_selected : Background Z :=
  bgRun None
    [ElementSelectedMsg page_span "https://example.org/" (Some 7%Z)
       1700000000000%Z 1700000000000%Z;
     ElementSaveSettled false]
    initialBackground.
(** * Properties *)

(** ** The monad *)

Lemma bind_Ret {A B} (m : M A) (k : A -> M B) d a d' :
  m d = (Ret a, d') -> bind m k d = k a d'.
Proof. intros H. unfold bind. by rewrite H. Qed.

Lemma deref_Some r n (d : Dom) : d !! r = Some n -> deref r d = (Ret n, d).
Proof. intros H. unfold deref. by rewrite H. Qed.

Lemma read_only_ret {A} (a : A) : read_only (ret a).
Proof. done. Qed.

Lemma read_only_throw {A} e : read_only (@throw A e).
Proof. done. Qed.

Lemma read_only_out_of_fuel {A} : read_only (@out_of_fuel A).
Proof. done. Qed.

Lemma read_only_bind {A B} (m : M A) (k : A -> M B) :
  read_only m -> (forall a, read_only (k a)) -> read_only (bind m k).
Proof.
  intros Hm Hk d. unfold bind. specialize (Hm d).
  destruct (m d) as [[a|e|] d']; simpl in *; subst; auto. apply Hk.
Qed.

Lemma read_only_deref r : read_only (deref r).
Proof. intros d. unfold deref. by destruct (d !! r). Qed.

Lemma read_only_defined {A} (v : option A) : read_only (defined v).
Proof. by destruct v. Qed.

Lemma read_only_parentElement n : read_only (parentElement n).
Proof.
  unfold parentElement. destruct (parentNode n); [|apply read_only_ret].
  apply read_only_bind; [apply read_only_deref|]. intros; apply read_only_ret.
Qed.

Create HintDb ro.

#[local] Hint Resolve read_only_ret read_only_throw read_only_out_of_fuel
  read_only_deref read_only_defined read_only_parentElement : ro.

Ltac ro_step :=
  first [ solve [eauto with ro]
        | apply read_only_bind; [|intros ?]
        | progress cbv zeta
        | match goal with
          | |- read_only (match ?x with _ => _ end) => destruct x
          end ].

(** ** Nothing is written *)

Lemma read_only_countPreviousSiblings fuel name sibling nb :
  read_only (countPreviousSiblings fuel name sibling nb).
Proof.
  revert sibling nb. induction fuel as [|fuel IH]; intros [r|] nb; simpl;
    repeat ro_step.
Qed.

Lemma read_only_findNextSibling fuel name sibling :
  read_only (findNextSibling fuel name sibling).
Proof.
  revert sibling. induction fuel as [|fuel IH]; intros [r|]; simpl;
    repeat ro_step.
Qed.

#[local] Hint Resolve read_only_countPreviousSiblings
  read_only_findNextSibling : ro.

Lemma read_only_walkAncestors inner fuel element parts :
  read_only (walkAncestors inner fuel element parts).
Proof.
  revert element parts. induction fuel as [|fuel IH]; intros [r|] parts; simpl;
    repeat ro_step.
Qed.

Lemma read_only_baseSelector e : read_only (baseSelector e).
Proof.
  unfold baseSelector. repeat ro_step.
Qed.

Lemma read_only_parentSelectorOf p : read_only (parentSelectorOf p).
Proof.
  unfold parentSelectorOf. repeat ro_step.
Qed.

#[local] Hint Resolve read_only_walkAncestors read_only_baseSelector
  read_only_parentSelectorOf : ro.

Lemma read_only_getXPath fuel element : read_only (getXPath fuel element).
Proof.
  unfold getXPath. repeat ro_step.
Qed.

Lemma read_only_generateSelector element : read_only (generateSelector element).
Proof.
  unfold generateSelector. repeat ro_step.
Qed.

(** ** Finite chains *)

Lemma chain_ends_mono d f k k' o :
  k <= k' -> chain_ends d f k o = true -> chain_ends d f k' o = true.
Proof.
  revert k' o. induction k as [|k IH]; intros k' [r|] Hle H; simpl in *;
    try done; try (by destruct k').
  destruct k' as [|k']; [lia|]. simpl.
  destruct (d !! r); [|done]. apply IH; [lia|done].
Qed.

Lemma chain_ends_next d f k r n :
  chain_ends d f k (Some r) = true -> d !! r = Some n ->
  chain_ends d f k (f n) = true.
Proof.
  intros H Hr. destruct k as [|k]; simpl in H; [done|]. rewrite Hr in H.
  apply chain_ends_mono with k; [lia|done].
Qed.

Lemma chain_stable d f k k' o :
  chain_ends d f k o = true -> k <= k' -> chain d f k' o = chain d f k o.
Proof.
  revert k' o. induction k as [|k IH]; intros k' [r|] H Hle; simpl in *; try done.
  - by destruct k'.
  - destruct k' as [|k']; [lia|]. simpl.
    destruct (d !! r); [|done]. f_equal. apply IH; [done|lia].
  - by destruct k'.
Qed.

Lemma wf_dom_lookup d r n :
  wf_dom d = true -> d !! r = Some n ->
  chain_ends d parentNode (size d) (Some r) = true
  /\ chain_ends d previousSibling (size d) (Some r) = true
  /\ chain_ends d nextSibling (size d) (Some r) = true.
Proof.
  unfold wf_dom. rewrite forallb_forall. intros H Hr.
  specialize (H (r, n)). simpl in H.
  rewrite !andb_true_iff in H.
  assert (Hin : In (r, n) (map_to_list d)).
  { apply list_elem_of_In. by apply elem_of_map_to_list. }
  destruct (H Hin) as [[? ?] ?]. auto.
Qed.

(** ** The loops of [getXPath] compute what the specification names *)

Lemma countPreviousSiblings_spec d name k :
  forall o fuel k2 nb,
    chain_ends d previousSibling k o = true -> k <= fuel -> k <= k2 ->
    countPreviousSiblings fuel name o nb d
    = (Ret (nb + length (List.filter (sameTag name) (chain d previousSibling k2 o))), d).
Proof.
  induction k as [|k IH]; intros [r|] fuel k2 nb H Hf Hk; simpl in H; try done.
  - destruct fuel, k2; simpl; unfold ret; by rewrite Nat.add_0_r.
  - destruct (d !! r) as [n|] eqn:Hr; [|done].
    destruct fuel as [|fuel]; [lia|]. destruct k2 as [|k2]; [lia|].
    simpl. rewrite Hr. erewrite bind_Ret by (by apply deref_Some).
    rewrite (IH _ fuel k2) by (done || lia).
    cbn [List.filter].
    change (sameTag name n) with (is_element n && bool_decide (nodeName n = name)).
    destruct (is_element n && _); simpl; do 2 f_equal; lia.
  - destruct fuel, k2; simpl; unfold ret; by rewrite Nat.add_0_r.
Qed.

Lemma findNextSibling_spec d name k :
  forall o fuel k2,
    chain_ends d nextSibling k o = true -> k <= fuel -> k <= k2 ->
    findNextSibling fuel name o d
    = (Ret (existsb (sameTag name) (chain d nextSibling k2 o)), d).
Proof.
  induction k as [|k IH]; intros [r|] fuel k2 H Hf Hk; simpl in H; try done.
  - by destruct fuel, k2.
  - destruct (d !! r) as [n|] eqn:Hr; [|done].
    destruct fuel as [|fuel]; [lia|]. destruct k2 as [|k2]; [lia|].
    simpl. rewrite Hr. erewrite bind_Ret by (by apply deref_Some).
    cbn [existsb].
    change (sameTag name n) with (is_element n && bool_decide (nodeName n = name)).
    destruct (is_element n && _); simpl; [done|].
    apply IH; (done || lia).
  - by destruct fuel, k2.
Qed.

Lemma index_segment d x :
  toLowerCase (nodeName x) +:+ index (precedingCount d x) (hasFollowing d x)
  = xpathSegment d x.
Proof.
  unfold index, xpathSegment.
  destruct (precedingCount d x) as [|c]; simpl;
    destruct (hasFollowing d x); simpl; try done.
  unfold String.app. induction (toLowerCase (nodeName x)); simpl; congruence.
Qed.

Lemma walkAncestors_spec d inner k :
  wf_dom d = true -> size d <= inner ->
  forall o fuel k2 parts,
    chain_ends d parentNode k o = true -> k <= fuel -> k <= k2 ->
    walkAncestors inner fuel o parts d
    = (Ret (rev (map (xpathSegment d) (elementPath d k2 o)) ++ parts)%list, d).
Proof.
  intros Hwf Hin.
  induction k as [|k IH]; intros [r|] fuel k2 parts H Hf Hk; simpl in H; try done.
  - by destruct fuel, k2.
  - destruct (d !! r) as [n|] eqn:Hr; [|done].
    destruct fuel as [|fuel]; [lia|]. destruct k2 as [|k2]; [lia|].
    simpl. rewrite Hr. erewrite bind_Ret by (by apply deref_Some).
    destruct (is_element n); [|done].
    destruct (wf_dom_lookup d r n Hwf Hr) as (_ & Hp & Hn).
    erewrite bind_Ret; cycle 1.
    { apply (countPreviousSiblings_spec d _ (size d)) with (k2 := size d);
        [by eapply chain_ends_next|lia|lia]. }
    erewrite bind_Ret; cycle 1.
    { apply (findNextSibling_spec d _ (size d)) with (k2 := size d);
        [by eapply chain_ends_next|lia|lia]. }
    rewrite (IH _ fuel k2) by (done || lia).
    simpl. rewrite <- app_assoc. simpl.
    change (length _) with (precedingCount d n).
    change (existsb _ _) with (hasFollowing d n).
    by rewrite index_segment.
  - by destruct fuel, k2.
Qed.

(** ** The id short-circuit *)

Lemma truthy_nonempty i : i <> "" -> truthy (Some i) = true.
Proof. by destruct i. Qed.

Lemma getXPath_id d element n i fuel :
  d !! element = Some n -> id n = Some i -> i <> "" ->
  getXPath fuel element d
  = (Ret (Some ("//*[@id=" +:+ dquote +:+ i +:+ dquote +:+ "]")), d).
Proof.
  intros Hn Hi Hne. unfold getXPath.
  erewrite bind_Ret by (by apply deref_Some).
  by rewrite Hi, truthy_nonempty.
Qed.

Lemma generateSelector_id d element n i :
  d !! element = Some n -> id n = Some i -> i <> "" ->
  generateSelector element d = (Ret ("#" +:+ i), d).
Proof.
  intros Hn Hi Hne. unfold generateSelector.
  erewrite bind_Ret by (by apply deref_Some).
  by rewrite Hi, truthy_nonempty.
Qed.

(** C1.  A node with a non-empty id gets [#<id>] from [generateSelector]
    and [//*[@id="<id>"]] from [getXPath], whatever its tag, its classes
    and the rest of the store are, and with no fuel at all: no class is
    read and no ancestor is visited. *)
Theorem id_short_circuit (d : Dom) (element : ref) (n : NodeRec) (i : string)
    (fuel : nat) :
  d !! element = Some n -> id n = Some i -> i <> "" ->
  generateSelector element d = (Ret ("#" +:+ i), d)
  /\ getXPath fuel element d
     = (Ret (Some ("//*[@id=" +:+ dquote +:+ i +:+ dquote +:+ "]")), d)
  /\ getXPath 0 element d = getXPath fuel element d.
Proof.
  intros Hn Hi Hne. split; [by eapply generateSelector_id|].
  by rewrite !(getXPath_id d element n i).
Qed.

Lemma id_short_circuit_witness :
  toolbar_doc !! 1%positive = Some (elem "DIV" "toolbar" "" None None None)
  /\ generateSelector 1%positive toolbar_doc = (Ret "#toolbar", toolbar_doc)
  /\ getXPath 0 1%positive toolbar_doc
     = (Ret (Some ("//*[@id=" +:+ dquote +:+ "toolbar" +:+ dquote +:+ "]")),
        toolbar_doc).
Proof.
  assert (H : toolbar_doc !! 1%positive
              = Some (elem "DIV" "toolbar" "" None None None))
    by reflexivity.
  split; [exact H|].
  destruct (id_short_circuit toolbar_doc 1%positive _ "toolbar" 0 H eq_refl)
    as (Hc & Hx & _); [discriminate|].
  split; [exact Hc|exact Hx].
Defined.

(** ** Verbatim interpolation *)

Lemma quote_scan_app a b st :
  quote_scan (a +:+ b) st = quote_scan b (quote_scan a st).
Proof. revert st. induction a as [|c a IH]; intros st; simpl; [done|apply IH]. Qed.

Lemma length_app_string a b :
  String.length (a +:+ b) = String.length a + String.length b.
Proof. induction a as [|c a IH]; simpl; [done|by rewrite IH]. Qed.

Lemma substring_app_exact a b : substring 0 (String.length a) (a +:+ b) = a.
Proof. induction a as [|c a IH]; simpl; [by destruct b|by rewrite IH]. Qed.

Lemma substring_full a : substring 0 (String.length a) a = a.
Proof. induction a as [|c a IH]; simpl; [done|by rewrite IH]. Qed.

(** C9.  The id goes into both results as it is, character for
    character: the results are the plain concatenations, the id sits at
    offset 9 of the XPath and at offset 1 of the selector, and nothing is
    added or escaped.  So the string literal of the XPath is closed exactly
    when scanning the id from inside the literal ends inside it, which a
    double quote in the id prevents. *)
Theorem id_interpolated_verbatim (d : Dom) (element : ref) (n : NodeRec)
    (i : string) (fuel : nat) :
  d !! element = Some n -> id n = Some i -> i <> "" ->
  exists x c,
    getXPath fuel element d = (Ret (Some x), d)
    /\ generateSelector element d = (Ret c, d)
    /\ x = "//*[@id=" +:+ dquote +:+ i +:+ dquote +:+ "]"
    /\ c = "#" +:+ i
    /\ String.length x = String.length i + 11
    /\ substring 9 (String.length i) x = i
    /\ String.length c = String.length i + 1
    /\ substring 1 (String.length i) c = i
    /\ xpath_literals_closed x
       = match quote_scan i InDouble with InDouble => true | _ => false end.
Proof.
  intros Hn Hi Hne. eexists _, _.
  split; [by eapply getXPath_id|]. split; [by eapply generateSelector_id|].
  split; [done|]. split; [done|].
  split. { rewrite !length_app_string. simpl. lia. }
  split. { exact (substring_app_exact i _). }
  split. { rewrite length_app_string. simpl. lia. }
  split. { exact (substring_full i). }
  unfold xpath_literals_closed.
  change (quote_scan ("//*[@id=" +:+ dquote +:+ i +:+ dquote +:+ "]") Outside)
    with (quote_scan (i +:+ dquote +:+ "]") InDouble).
  rewrite quote_scan_app. by destruct (quote_scan i InDouble).
Qed.

Lemma id_interpolated_verbatim_witness :
  quoted_id_div !! 1%positive = Some (elem "DIV" quoted_id "" None None None)
  /\ exists x c,
       getXPath 1 1%positive quoted_id_div = (Ret (Some x), quoted_id_div)
       /\ generateSelector 1%positive quoted_id_div = (Ret c, quoted_id_div)
       /\ String.length x = 14
       /\ substring 9 3 x = quoted_id
       /\ c = "#" +:+ quoted_id
       /\ xpath_literals_closed x = false.
Proof.
  assert (H : quoted_id_div !! 1%positive
              = Some (elem "DIV" quoted_id "" None None None))
    by reflexivity.
  split; [exact H|].
  destruct (id_interpolated_verbatim quoted_id_div 1%positive _ quoted_id 1
              H eq_refl)
    as (x & c & Hx & Hc & _ & Ec & Hl & Hs & _ & _ & Hq); [discriminate|].
  exists x, c. repeat split; assumption.
Defined.

(** ** No writes, no memory *)

(** C8.  Neither function creates, changes or removes a node: the store
    after a call is the store before it, whatever the outcome, so every
    reference reads the same record (tag, id, class attribute and the
    three links) before and after. *)
Theorem synthesizer_read_only (fuel : nat) (element : ref) (d : Dom) :
  (getXPath fuel element d).2 = d
  /\ (generateSelector element d).2 = d
  /\ (forall r, (getXPath fuel element d).2 !! r = d !! r)
  /\ (forall r, (generateSelector element d).2 !! r = d !! r)
  /\ dom (getXPath fuel element d).2 = dom d
  /\ dom (generateSelector element d).2 = dom d.
Proof.
  pose proof (read_only_getXPath fuel element d) as Hx.
  pose proof (read_only_generateSelector element d) as Hc.
  rewrite Hx, Hc. done.
Qed.

(** C7.  A second call on the store the first call left behind returns
    what the first call returned, for either function and in either
    order: the result depends on the node and the store only. *)
Theorem synthesizer_deterministic (fuel : nat) (element : ref) (d : Dom) :
  (getXPath fuel element (getXPath fuel element d).2).1
  = (getXPath fuel element d).1
  /\ (generateSelector element (generateSelector element d).2).1
     = (generateSelector element d).1
  /\ (getXPath fuel element (generateSelector element d).2).1
     = (getXPath fuel element d).1
  /\ (generateSelector element (getXPath fuel element d).2).1
     = (generateSelector element d).1.
Proof.
  by rewrite (read_only_getXPath fuel element d),
             (read_only_generateSelector element d).
Qed.

(** ** A detached node *)

(** A [div] with no id, an empty class attribute and no parent (hence no
    siblings) gets the selector [div] and the XPath [/div].  Nothing is
    thrown, and the ancestor loop runs exactly once: one unit of outer fuel
    gives the single segment, none does not. *)
Theorem detached_div (d : Dom) (element : ref) (tag : string) (fuel : nat) :
  d !! element = Some (elem tag "" "" None None None) ->
  toLowerCase tag = "div" ->
  1 <= fuel ->
  generateSelector element d = (Ret "div", d)
  /\ getXPath fuel element d = (Ret (Some "/div"), d)
  /\ walkAncestors fuel 1 (Some element) [] d = (Ret ["div"], d)
  /\ walkAncestors fuel 0 (Some element) [] d = (OutOfFuel, d).
Proof.
  intros Hn Htag Hf.
  assert (Hw : forall k, walkAncestors fuel (S k) (Some element) [] d
                         = (Ret ["div"], d)).
  { intros k. simpl. unfold bind at 1. rewrite (deref_Some _ _ _ Hn). simpl.
    destruct fuel as [|fuel]; [lia|]. simpl. unfold bind, ret. simpl.
    change (nodeName (elem tag "" "" None None None)) with tag.
    rewrite Htag. by destruct k. }
  split; [|split; [|split]].
  - unfold generateSelector, bind at 1. rewrite (deref_Some _ _ _ Hn). simpl.
    unfold baseSelector, bind, defined, ret. simpl. by rewrite Htag.
  - unfold getXPath, bind at 1. rewrite (deref_Some _ _ _ Hn). simpl.
    destruct fuel as [|k]; [lia|]. unfold bind. by rewrite Hw.
  - apply Hw.
  - simpl. unfold bind. by rewrite (deref_Some _ _ _ Hn).
Qed.

Lemma detached_div_witness :
  lone_div !! 1%positive = Some (elem "DIV" "" "" None None None)
  /\ toLowerCase "DIV" = "div"
  /\ 1 <= 1
  /\ generateSelector 1%positive lone_div = (Ret "div", lone_div)
  /\ getXPath 1 1%positive lone_div = (Ret (Some "/div"), lone_div).
Proof.
  assert (H : lone_div !! 1%positive = Some (elem "DIV" "" "" None None None))
    by reflexivity.
  destruct (detached_div lone_div 1%positive "DIV" 1 H eq_refl (le_n 1))
    as (Hc & Hx & _).
  split; [exact H|]. split; [reflexivity|]. split; [exact (le_n 1)|].
  split; [exact Hc|exact Hx].
Defined.

(** C6, at the blank class attribute.  [<div class=" ">], detached, is a
    [div] with no id, no classes (its class list is empty) and no parent.
    [getXPath] returns [/div] for it, whatever fuel the loops have beyond
    the first unit, and nothing is thrown; [generateSelector], however,
    returns [div.] and not [div]: the class step is guarded by the class
    attribute, which is one space here, not by the class list. *)
Theorem detached_blank_class_div :
  blank_class_div !! 1%positive = Some (elem "DIV" "" " " None None None)
  /\ toLowerCase "DIV" = "div"
  /\ id (elem "DIV" "" " " None None None) = Some ""
  /\ classList (elem "DIV" "" " " None None None) = []
  /\ parentNode (elem "DIV" "" " " None None None) = None
  /\ generateSelector 1%positive blank_class_div = (Ret "div.", blank_class_div)
  /\ (generateSelector 1%positive blank_class_div).1 <> Ret "div"
  /\ forall fuel,
       getXPath (S fuel) 1%positive blank_class_div
       = (Ret (Some "/div"), blank_class_div).
Proof.
  repeat (split; [reflexivity || discriminate|]).
  intros fuel. destruct fuel as [|[|fuel]]; reflexivity.
Qed.

(** ** [getXPath] without an id: the positional path *)

Lemma elementPath_head d k r n :
  d !! r = Some n -> is_element n = true ->
  elementPath d (S k) (Some r) = n :: elementPath d k (parentNode n).
Proof. intros Hr He. simpl. by rewrite Hr, He. Qed.

Lemma getXPath_no_id d element n fuel :
  wf_dom d = true -> d !! element = Some n ->
  is_element n = true -> truthy (id n) = false -> size d <= fuel ->
  getXPath fuel element d = (Ret (Some (computeXPath d element)), d).
Proof.
  intros Hwf Hn He Hid Hf.
  destruct (wf_dom_lookup d element n Hwf Hn) as (Hp & _ & _).
  unfold getXPath, bind at 1. rewrite (deref_Some _ _ _ Hn), Hid.
  unfold bind.
  rewrite (walkAncestors_spec d fuel (size d) Hwf Hf _ fuel (size d) [] Hp)
    by lia.
  unfold ret, computeXPath. rewrite app_nil_r, <- map_rev.
  destruct (size d) as [|k] eqn:Hk; [done|].
  rewrite (elementPath_head d k element n Hn He). simpl.
  rewrite map_app. simpl.
  by destruct (map (xpathSegment d) (rev (elementPath d k (parentNode n)))).
Qed.

Lemma xpathSegment_positional d x c :
  precedingCount d x = S c ->
  xpathSegment d x
  = toLowerCase (nodeName x) +:+ "[" +:+ pretty (S c + 1)%nat +:+ "]".
Proof. intros H. unfold xpathSegment. by rewrite H. Qed.

Lemma xpathSegment_bare d x :
  precedingCount d x = 0 -> hasFollowing d x = false ->
  xpathSegment d x = toLowerCase (nodeName x).
Proof. intros H1 H2. unfold xpathSegment. by rewrite H1, H2. Qed.

(** C2.  For an element with no id in a finite tree, [getXPath] returns
    the path of the specification: a leading [/], then, from the topmost
    element ancestor down to the node, the segments joined by [/], each
    the lowercase tag name followed by [[precedingCount + 1]] when a
    preceding or a following sibling has the identical tag name and bare
    otherwise.  A third [li] is [li[3]]; an element alone of its tag among
    its siblings is its bare tag. *)
Theorem getXPath_positional_segments (d : Dom) (element : ref) (n : NodeRec)
    (fuel : nat) :
  wf_dom d = true -> d !! element = Some n ->
  is_element n = true -> truthy (id n) = false -> size d <= fuel ->
  getXPath fuel element d
  = (Ret (Some ("/" +:+ join "/" (map (xpathSegment d)
                   (rev (elementPath d (size d) (Some element)))))), d)
  /\ (forall x c, precedingCount d x = c ->
        xpathSegment d x
        = if (0 <? c)%nat || hasFollowing d x
          then toLowerCase (nodeName x) +:+ "[" +:+ pretty (c + 1)%nat +:+ "]"
          else toLowerCase (nodeName x))
  /\ (forall x, toLowerCase (nodeName x) = "li" -> precedingCount d x = 2 ->
        xpathSegment d x = "li[3]")
  /\ (forall x, precedingCount d x = 0 -> hasFollowing d x = false ->
        xpathSegment d x = toLowerCase (nodeName x)).
Proof.
  intros Hwf Hn He Hid Hf. split; [by eapply getXPath_no_id|].
  split; [by intros x c <-|]. split.
  - intros x Hli Hc. rewrite (xpathSegment_positional d x 1 Hc), Hli.
    reflexivity.
  - apply xpathSegment_bare.
Qed.

Lemma getXPath_positional_segments_witness :
  wf_dom list_doc = true
  /\ list_doc !! 13%positive
     = Some (elem "LI" "" "item" (Some 5%positive) (Some 12%positive)
               (Some 14%positive))
  /\ size list_doc <= 11
  /\ getXPath 11 13%positive list_doc
     = (Ret (Some "/html/body/ul/li[3]"), list_doc)
  /\ getXPath 11 5%positive list_doc
     = (Ret (Some "/html/body/ul"), list_doc).
Proof.
  assert (Hwf : wf_dom list_doc = true) by (vm_compute; reflexivity).
  assert (Hn : list_doc !! 13%positive
               = Some (elem "LI" "" "item" (Some 5%positive) (Some 12%positive)
                         (Some 14%positive)))
    by (vm_compute; reflexivity).
  assert (Hs : size list_doc <= 11) by (vm_compute; lia).
  destruct (getXPath_positional_segments list_doc 13%positive _ 11
              Hwf Hn eq_refl eq_refl Hs) as (Hx & _).
  destruct (getXPath_positional_segments list_doc 5%positive
              (elem "UL" "" "menu  main menu" (Some 3%positive)
                 (Some 4%positive) (Some 6%positive)) 11
              Hwf eq_refl eq_refl eq_refl Hs) as (Hu & _).
  split; [exact Hwf|]. split; [exact Hn|]. split; [exact Hs|].
  split; [exact Hx|exact Hu].
Defined.

(** ** [generateSelector] without an id *)

Lemma baseSelector_element d n tag i c :
  data n = Element tag i c ->
  baseSelector n d
  = (Ret (if truthy (Some c)
          then toLowerCase tag +:+ "." +:+ join "." (parse_class_tokens c)
          else toLowerCase tag), d).
Proof.
  intros Hd. unfold baseSelector, tagName, className, classList.
  rewrite Hd. simpl. unfold bind, ret. simpl. by destruct c.
Qed.

Lemma wf_dom_parent d r n p :
  wf_dom d = true -> d !! r = Some n -> parentNode n = Some p ->
  is_Some (d !! p).
Proof.
  intros Hwf Hr Hp. destruct (wf_dom_lookup d r n Hwf Hr) as (H & _ & _).
  pose proof (chain_ends_next d parentNode _ r n H Hr) as H'.
  rewrite Hp in H'. destruct (size d); simpl in H'; [done|].
  destruct (d !! p); [by eexists|done].
Qed.

Lemma generateSelector_no_id d element n tag c base :
  wf_dom d = true -> d !! element = Some n -> data n = Element tag "" c ->
  baseSelector n d = (Ret base, d) ->
  generateSelector element d
  = (Ret (match parentPrefix d n with
          | Some pre => pre +:+ " > " +:+ base
          | None => base
          end), d).
Proof.
  intros Hwf Hn Hd Hb.
  unfold generateSelector, bind at 1. rewrite (deref_Some _ _ _ Hn).
  unfold id at 1. rewrite Hd. simpl.
  unfold bind at 1. rewrite Hb.
  unfold parentPrefix, parentElement.
  destruct (parentNode n) as [p|] eqn:Hp; [|done].
  destruct (wf_dom_parent d element n p Hwf Hn Hp) as [pn Hpn].
  unfold bind. rewrite (deref_Some _ _ _ Hpn), Hpn. simpl.
  unfold is_element, nodeType, tagName, parentSelectorOf, id.
  destruct (data pn) as [ptag pid pcls|k name] eqn:Hpd; simpl.
  - rewrite (deref_Some _ _ _ Hpn). unfold tagName, id. rewrite Hpd.
    destruct (decide (ptag = "BODY")) as [->|Hne].
    + by rewrite bool_decide_eq_false_2 by (intros H; by apply H).
    + rewrite bool_decide_eq_true_2 by congruence.
      rewrite (bool_decide_eq_false_2 (ptag = "BODY")) by done.
      unfold bind, defined, ret. by destruct pid.
  - by destruct k.
Qed.

(** C4.  For an element with no id in a finite tree, [generateSelector]
    looks one level up and no further: with a parent element whose tag is
    not [BODY] the result is [<prefix> > <base>], the prefix being the
    parent's [#id] when it has an id and its lowercase tag name otherwise;
    with no parent element, or with the body as parent, the result is the
    base selector unchanged. *)
Theorem generateSelector_parent_prefix (d : Dom) (element : ref) (n : NodeRec)
    (tag c : string) :
  wf_dom d = true -> d !! element = Some n -> data n = Element tag "" c ->
  exists base,
    baseSelector n d = (Ret base, d)
    /\ generateSelector element d
       = (Ret (match parentPrefix d n with
               | Some pre => pre +:+ " > " +:+ base
               | None => base
               end), d)
    /\ (parentNode n = None -> generateSelector element d = (Ret base, d))
    /\ (forall p pn, parentNode n = Some p -> d !! p = Some pn ->
          is_element pn = false -> generateSelector element d = (Ret base, d))
    /\ (forall p pn, parentNode n = Some p -> d !! p = Some pn ->
          tagName pn = Some "BODY" -> generateSelector element d = (Ret base, d))
    /\ (forall p pn ptag pid, parentNode n = Some p -> d !! p = Some pn ->
          tagName pn = Some ptag -> ptag <> "BODY" -> id pn = Some pid ->
          generateSelector element d
          = (Ret ((if bool_decide (pid = "") then toLowerCase ptag
                   else "#" +:+ pid) +:+ " > " +:+ base), d)).
Proof.
  intros Hwf Hn Hd. eexists. split; [by eapply baseSelector_element|].
  pose proof (generateSelector_no_id d element n tag c _ Hwf Hn Hd
                (baseSelector_element d n tag "" c Hd)) as Hg.
  split; [exact Hg|]. unfold parentPrefix in Hg.
  split; [|split; [|split]].
  - intros Hp. by rewrite Hp in Hg.
  - intros p pn Hp Hpn He. rewrite Hp, Hpn in Hg. simpl in Hg.
    unfold is_element, nodeType in He. by destruct (data pn) as [| []].
  - intros p pn Hp Hpn Ht. rewrite Hp, Hpn in Hg. simpl in Hg.
    unfold tagName in Ht. destruct (data pn); [|done].
    injection Ht as ->. by rewrite bool_decide_eq_true_2 in Hg.
  - intros p pn ptag pid Hp Hpn Ht Hne Hi. rewrite Hp, Hpn in Hg. simpl in Hg.
    unfold tagName in Ht. unfold id in Hi. destruct (data pn); [|done].
    injection Ht as ->. injection Hi as ->.
    by rewrite bool_decide_eq_false_2 in Hg.
Qed.

Lemma generateSelector_parent_prefix_witness :
  wf_dom toolbar_doc = true
  /\ toolbar_doc !! 2%positive
     = Some (elem "DIV" "" "btn primary" (Some 1%positive) None None)
  /\ generateSelector 2%positive toolbar_doc
     = (Ret "#toolbar > div.btn.primary", toolbar_doc)
  /\ generateSelector 5%positive list_doc = (Ret "ul.menu.main", list_doc)
  /\ generateSelector 13%positive list_doc = (Ret "ul > li.item", list_doc).
Proof.
  assert (Hwf : wf_dom toolbar_doc = true) by (vm_compute; reflexivity).
  assert (Hn : toolbar_doc !! 2%positive
               = Some (elem "DIV" "" "btn primary" (Some 1%positive) None None))
    by (vm_compute; reflexivity).
  destruct (generateSelector_parent_prefix toolbar_doc 2%positive _
              "DIV" "btn primary" Hwf Hn eq_refl) as (base & Hb & Hg & _).
  split; [exact Hwf|]. split; [exact Hn|].
  assert (Hbase : base = "div.btn.primary")
    by (vm_compute in Hb; congruence).
  rewrite Hbase in Hg. split; [exact Hg|].
  assert (Hwl : wf_dom list_doc = true) by (vm_compute; reflexivity).
  destruct (generateSelector_parent_prefix list_doc 5%positive
              (elem "UL" "" "menu  main menu" (Some 3%positive)
                 (Some 4%positive) (Some 6%positive))
              "UL" "menu  main menu" Hwl eq_refl eq_refl)
    as (ul & Hul & _ & _ & _ & Hbody & _).
  assert (Eul : ul = "ul.menu.main") by (vm_compute in Hul; congruence).
  rewrite Eul in Hbody.
  split.
  { exact (Hbody 3%positive (elem "BODY" "" "" (Some 2%positive) None None)
             eq_refl eq_refl eq_refl). }
  destruct (generateSelector_parent_prefix list_doc 13%positive
              (elem "LI" "" "item" (Some 5%positive) (Some 12%positive)
                 (Some 14%positive))
              "LI" "item" Hwl eq_refl eq_refl)
    as (li & Hli & _ & _ & _ & _ & Hpre).
  assert (Eli : li = "li.item") by (vm_compute in Hli; congruence).
  rewrite Eli in Hpre.
  refine (Hpre 5%positive (elem "UL" "" "menu  main menu" (Some 3%positive)
                 (Some 4%positive) (Some 6%positive)) "UL" ""
            eq_refl eq_refl eq_refl _ eq_refl).
  discriminate.
Defined.

(** ** Totality on elements; no promise of well-formed output *)

Lemma is_element_data n :
  is_element n = true -> exists tag i c, data n = Element tag i c.
Proof.
  unfold is_element, nodeType. destruct (data n) as [tag i c|[] name];
    intros H; try done. by exists tag, i, c.
Qed.

(** C3, as the code has it.  On every element of a finite tree, with fuel
    for as many steps as the store has nodes, both functions return: no
    exception, no [null], a string each, and the store is handed back.
    This covers an element with no parent and an element whose tag is the
    empty string.  Nothing is promised about the strings being well-formed
    locators: ids and class names are interpolated unescaped. *)
Theorem synthesizer_total (d : Dom) (element : ref) (n : NodeRec) (fuel : nat) :
  wf_dom d = true -> d !! element = Some n -> is_element n = true ->
  size d <= fuel ->
  exists x c,
    getXPath fuel element d = (Ret (Some x), d)
    /\ generateSelector element d = (Ret c, d)
    /\ exists rest, x = "/" +:+ rest.
Proof.
  intros Hwf Hn He Hf.
  destruct (is_element_data n He) as (tag & i & c & Hd).
  destruct i as [|a i].
  - eexists _, _. split; [|split].
    + apply (getXPath_no_id d element n fuel Hwf Hn He); [|done].
      unfold id. by rewrite Hd.
    + eapply generateSelector_no_id; [done..|]. by eapply baseSelector_element.
    + by eexists.
  - eexists _, _. split; [|split].
    + apply (getXPath_id d element n (String a i)); [done| |done].
      unfold id. by rewrite Hd.
    + apply (generateSelector_id d element n (String a i)); [done| |done].
      unfold id. by rewrite Hd.
    + by eexists.
Qed.

(** Off the elements the two functions do not return a string: on a text,
    comment or document node [getXPath] returns [null] and
    [generateSelector] throws at [tagName.toLowerCase()]. *)
Lemma getXPath_non_element d element n fuel :
  d !! element = Some n -> is_element n = false ->
  getXPath fuel element d = (Ret None, d).
Proof.
  intros Hn He. unfold getXPath, bind at 1. rewrite (deref_Some _ _ _ Hn).
  assert (Hid : id n = None).
  { unfold is_element, nodeType in He. unfold id. by destruct (data n). }
  rewrite Hid. simpl. unfold bind.
  destruct fuel; simpl; unfold bind; by rewrite (deref_Some _ _ _ Hn), He.
Qed.

Lemma generateSelector_non_element d element n :
  d !! element = Some n -> is_element n = false ->
  generateSelector element d = (Throw TypeError, d).
Proof.
  intros Hn He. unfold generateSelector, bind at 1.
  rewrite (deref_Some _ _ _ Hn).
  unfold is_element, nodeType in He.
  unfold id, baseSelector, tagName. by destruct (data n).
Qed.

Lemma synthesizer_total_witness :
  wf_dom list_doc = true
  /\ list_doc !! 5%positive
     = Some (elem "UL" "" "menu  main menu" (Some 3%positive)
               (Some 4%positive) (Some 6%positive))
  /\ size list_doc <= 11
  /\ exists x c,
       getXPath 11 5%positive list_doc = (Ret (Some x), list_doc)
       /\ generateSelector 5%positive list_doc = (Ret c, list_doc)
       /\ exists rest, x = "/" +:+ rest.
Proof.
  assert (Hwf : wf_dom list_doc = true) by (vm_compute; reflexivity).
  assert (Hs : size list_doc <= 11) by (vm_compute; lia).
  split; [exact Hwf|]. split; [reflexivity|]. split; [exact Hs|].
  exact (synthesizer_total list_doc 5%positive _ 11 Hwf eq_refl eq_refl Hs).
Defined.

(** C3, as stated, fails: the XPath returned for a [div] whose id holds a
    double quote leaves a string literal open. *)
Lemma quoted_id_xpath_malformed :
  wf_dom quoted_id_div = true
  /\ quoted_id_div !! 1%positive
     = Some (elem "DIV" quoted_id "" None None None)
  /\ exists x,
       getXPath 1 1%positive quoted_id_div = (Ret (Some x), quoted_id_div)
       /\ x = "//*[@id=" +:+ dquote +:+ "a" +:+ dquote +:+ "b" +:+ dquote +:+ "]"
       /\ xpath_literals_closed x = false.
Proof.
  split; [by vm_compute|]. split; [reflexivity|].
  eexists. split; [reflexivity|]. split; reflexivity.
Qed.

(** ** The class attribute that holds no class *)

Lemma has_context_dot s : has_context (s +:+ ".") = has_context s.
Proof. induction s as [|a s IH]; simpl; [done|by rewrite IH]. Qed.

Lemma dots_followed_dot s : dots_followed (s +:+ ".") = false.
Proof.
  induction s as [|a s IH]; [done|].
  change (String a s +:+ ".") with (String a (s +:+ ".")).
  cbn [dots_followed]. rewrite IH. apply andb_false_r.
Qed.

Lemma split_whitespace_blank s :
  forallb is_ascii_whitespace (list_ascii_of_string s) = true ->
  split_whitespace s [] = [].
Proof.
  induction s as [|a s IH]; simpl; [done|].
  rewrite andb_true_iff. intros [-> H]. by rewrite IH.
Qed.

(** An attribute of blanks holds no class. *)
Lemma parse_class_tokens_blank s :
  forallb is_ascii_whitespace (list_ascii_of_string s) = true ->
  parse_class_tokens s = [].
Proof. intros H. unfold parse_class_tokens. by rewrite split_whitespace_blank. Qed.

(** C10.  An element with no id whose class attribute is a non-empty
    string that holds no token (blanks only, say) still gets the dot: the
    base selector is the lowercase tag name followed by ['.'], a parentless
    such element gets exactly that from [generateSelector], and the string
    ends in a class dot that no identifier follows. *)
Theorem blank_class_trailing_dot (d : Dom) (element : ref) (n : NodeRec)
    (tag c : string) :
  d !! element = Some n -> data n = Element tag "" c ->
  c <> "" -> classList n = [] ->
  baseSelector n d = (Ret (toLowerCase tag +:+ "."), d)
  /\ (parentNode n = None ->
      generateSelector element d = (Ret (toLowerCase tag +:+ "."), d))
  /\ (has_context (toLowerCase tag) = false ->
      css_class_dots_ok (toLowerCase tag +:+ ".") = false).
Proof.
  intros Hn Hd Hc Hl.
  assert (Hb : baseSelector n d = (Ret (toLowerCase tag +:+ "."), d)).
  { rewrite (baseSelector_element d n tag "" c Hd), (truthy_nonempty c Hc).
    unfold classList in Hl. rewrite Hd in Hl. rewrite Hl. reflexivity. }
  split; [exact Hb|]. split.
  - intros Hp. unfold generateSelector, bind at 1.
    rewrite (deref_Some _ _ _ Hn). unfold id at 1. rewrite Hd. simpl.
    unfold bind at 1. rewrite Hb. unfold parentElement. by rewrite Hp.
  - intros Hctx. unfold css_class_dots_ok.
    by rewrite has_context_dot, Hctx, dots_followed_dot.
Qed.

Lemma blank_class_trailing_dot_witness :
  blank_class_div !! 1%positive = Some (elem "DIV" "" " " None None None)
  /\ " " <> ""
  /\ classList (elem "DIV" "" " " None None None) = []
  /\ baseSelector (elem "DIV" "" " " None None None) blank_class_div
     = (Ret "div.", blank_class_div)
  /\ generateSelector 1%positive blank_class_div = (Ret "div.", blank_class_div)
  /\ css_class_dots_ok "div." = false.
Proof.
  assert (Hne : " " <> "") by discriminate.
  destruct (blank_class_trailing_dot blank_class_div 1%positive
              (elem "DIV" "" " " None None None) "DIV" " "
              eq_refl eq_refl Hne eq_refl) as (Hb & Hg & Hv).
  split; [reflexivity|]. split; [exact Hne|]. split; [reflexivity|].
  split; [exact Hb|]. split; [exact (Hg eq_refl)|exact (Hv eq_refl)].
Defined.

(** C5 at the blank class attribute: the element has no class, yet the
    base selector is not the bare tag name. *)
Theorem blank_class_base_not_bare :
  blank_class_div !! 1%positive = Some (elem "DIV" "" " " None None None)
  /\ classList (elem "DIV" "" " " None None None) = []
  /\ generateSelector 1%positive blank_class_div = (Ret "div.", blank_class_div)
  /\ "div." <> toLowerCase "DIV".
Proof. repeat split; done. Qed.

(** Where the element does have classes, the base selector lists them all,
    in the order of [classList]. *)
Lemma baseSelector_with_classes d n tag c :
  data n = Element tag "" c -> classList n <> [] ->
  baseSelector n d
  = (Ret (toLowerCase tag +:+ "." +:+ join "." (classList n)), d).
Proof.
  intros Hd Hl. rewrite (baseSelector_element d n tag "" c Hd).
  unfold classList in *. rewrite Hd in *.
  destruct c; [done|reflexivity].
Qed.

Lemma baseSelector_no_class_attribute d n tag :
  data n = Element tag "" "" -> baseSelector n d = (Ret (toLowerCase tag), d).
Proof. intros Hd. by rewrite (baseSelector_element d n tag "" "" Hd). Qed.

(** * The rest of the picker *)

(** ** [generateTailwindClasses] *)

Lemma tailwindMap_entry k c :
  tailwindMap !! k = Some c -> (k, c) ∈ tailwindEntries.
Proof. apply elem_of_list_to_map_2. Qed.

#[local] Opaque tailwindMap.

Ltac tailwind_cases H :=
  unfold tailwindEntries in H;
  repeat (apply elem_of_cons in H as [H|H]);
  [..|by apply elem_of_nil in H].

Lemma tailwindMap_truthy k c : tailwindMap !! k = Some c -> truthy (Some c) = true.
Proof.
  intros H. apply tailwindMap_entry in H.
  tailwind_cases H; by injection H as _ ->.
Qed.

Lemma suggest_omap styles : forall suggestions,
  foldl suggest suggestions styles
  = (suggestions ++ omap (fun e => tailwindMap !! cssDeclarationOf e) styles)%list.
Proof.
  induction styles as [|e styles IH]; intros acc; simpl.
  - by rewrite app_nil_r.
  - rewrite IH. unfold suggest. cbv zeta.
    destruct (tailwindMap !! cssDeclarationOf e) as [c|] eqn:Hc.
    + rewrite (tailwindMap_truthy _ _ Hc). simpl. by rewrite <- app_assoc.
    + done.
Qed.

Lemma join_nonempty sep x xs : x <> "" -> join sep (x :: xs) <> "".
Proof.
  intros Hx. unfold join. destruct xs; simpl; [done|].
  destruct x; [done|]. discriminate.
Qed.

Lemma omap_length_le {A B} (f : A -> option B) (l : list A) :
  length (omap f l) <= length l.
Proof.
  induction l as [|a l IH]; [done|].
  change (omap f (a :: l))
    with (match f a with Some y => y :: omap f l | None => omap f l end).
  destruct (f a); simpl; lia.
Qed.

(** X1.  The Tailwind suggestion is the space-joined list of the classes
    of the entries whose [prop: value] declaration is a key of the table,
    in entry order, and the fixed fallback sentence when no entry matches
    (an empty [styles] included); it is never the empty string. *)
Theorem generateTailwindClasses_matches (styles : list (string * string)) :
  generateTailwindClasses styles
  = match omap (fun e => tailwindMap !! cssDeclarationOf e) styles with
    | [] => "Custom styles needed - see original CSS"
    | matches => join " " matches
    end
  /\ generateTailwindClasses styles <> ""
  /\ length (omap (fun e => tailwindMap !! cssDeclarationOf e) styles)
     <= length styles.
Proof.
  unfold generateTailwindClasses. rewrite suggest_omap. simpl.
  split; [|split].
  - by destruct (omap _ styles).
  - destruct (omap _ styles) as [|c cs] eqn:Hm; simpl; [done|].
    apply join_nonempty.
    assert (Hin : c ∈ omap (fun e => tailwindMap !! cssDeclarationOf e) styles)
      by (rewrite Hm; left).
    apply list_elem_of_omap in Hin as (e & _ & He).
    apply tailwindMap_truthy in He. by destruct c.
  - apply omap_length_le.
Qed.

Lemma tailwindMap_unmapped prop v :
  prop ∈ [ "backgroundColor"; "fontSize"; "fontFamily"; "fontWeight";
           "border"; "borderRadius"; "position"; "width"; "height";
           "flexDirection"; "justifyContent"; "alignItems" ] ->
  tailwindMap !! (prop +:+ ": " +:+ v) = None.
Proof.
  intros Hp. destruct (tailwindMap !! _) as [c|] eqn:Hc; [|done].
  apply tailwindMap_entry in Hc. exfalso.
  repeat (apply elem_of_cons in Hp as [->|Hp]);
    try (by apply elem_of_nil in Hp);
    tailwind_cases Hc; discriminate Hc.
Qed.

Lemma suggest_unmapped acc prop v :
  prop ∈ [ "backgroundColor"; "fontSize"; "fontFamily"; "fontWeight";
           "border"; "borderRadius"; "position"; "width"; "height";
           "flexDirection"; "justifyContent"; "alignItems" ] ->
  suggest acc (prop, v) = acc.
Proof.
  intros Hp. unfold suggest, cssDeclarationOf. simpl.
  by rewrite (tailwindMap_unmapped prop v Hp).
Qed.

(** X2.  On the styles the content script captures, whose keys are the
    camel-case names of [stylesToCapture], only [color], [padding],
    [margin] and [display] can meet the hyphenated keys of the table:
    whatever the computed values are, the suggestion is the one for these
    four entries alone, so [justify-center], [items-center], [rounded],
    [rounded-lg], [bg-blue-500], [font-bold] and the [text-*] sizes are
    never suggested. *)
Theorem captured_styles_reach_four_keys (getPropertyValue : string -> string) :
  generateTailwindClasses (relevantStyles getPropertyValue)
  = generateTailwindClasses
      [ ("color", getPropertyValue "color");
        ("padding", getPropertyValue "padding");
        ("margin", getPropertyValue "margin");
        ("display", getPropertyValue "display") ]
  /\ forall c,
       c ∈ omap (fun e => tailwindMap !! cssDeclarationOf e)
             (relevantStyles getPropertyValue) ->
       c ∈ [ "text-white"; "p-2"; "p-4"; "m-2"; "m-4"; "flex" ].
Proof.
  assert (Hf : forall acc,
    foldl suggest acc (relevantStyles getPropertyValue)
    = foldl suggest acc
        [ ("color", getPropertyValue "color");
          ("padding", getPropertyValue "padding");
          ("margin", getPropertyValue "margin");
          ("display", getPropertyValue "display") ]).
  { intros acc. unfold relevantStyles, stylesToCapture.
    cbn [map foldl].
    rewrite !suggest_unmapped
      by (repeat first [ apply list_elem_of_here | apply list_elem_of_further ]).
    done. }
  split.
  - unfold generateTailwindClasses. by rewrite Hf.
  - intros c Hc.
    pose proof (suggest_omap (relevantStyles getPropertyValue) []) as H1.
    rewrite Hf, suggest_omap in H1. rewrite !app_nil_l in H1.
    rewrite <- H1 in Hc.
    apply list_elem_of_omap in Hc as ([p v] & Hin & He).
    apply tailwindMap_entry in He. unfold cssDeclarationOf in He. simpl in He.
    repeat (apply elem_of_cons in Hin as [Hin|Hin]);
      try (by apply elem_of_nil in Hin);
      injection Hin as -> ->;
      tailwind_cases He; try discriminate He;
      injection He as _ <-;
      repeat first [ apply list_elem_of_here | apply list_elem_of_further ].
Qed.


(** ** The picker keeps its shadow root in shape *)

Ltac inv_open s Hinv :=
  let rest := fresh "rest" in
  let Hsr := fresh "Hsr" in
  let Hok := fresh "Hok" in
  let Hmade := fresh "Hmade" in
  let Hin := fresh "Hin" in
  let Hcur := fresh "Hcur" in
  let Htm := fresh "Htm" in
  destruct s as [act hl sel tb sr made cur sto snt tms];
  destruct Hinv as (rest & Hsr & Hok & Hmade & Hin & Hcur & Htm);
  simpl in *; subst sr;
  destruct rest as [|[? [|?|? ?]] [|[? [|?|? ?]] [|? ?]]];
  simpl in Hok; try done;
  destruct_and?; subst;
  repeat match goal with
  | H : 2 <= ?n |- _ => destruct n as [|[|?]]; [lia|lia|clear H]
  end.

Ltac eqb_solve :=
  repeat first
    [ rewrite Nat.eqb_refl; simpl
    | match goal with
      | |- context [(?a =? ?b)%nat] =>
          is_var a; is_var b; destruct (Nat.eqb_spec a b); try lia; simpl
      end ].

Lemma timer_ok_mono tb tb' made made' (tms : list (nat * Action * string)) :
  Forall (timer_ok tb made) tms ->
  made <= made' -> (forall i, tb' = Some i -> tb = Some i \/ made <= i) ->
  Forall (timer_ok tb' made') tms.
Proof.
  intros H Hm Ht. eapply Forall_impl; [exact H|].
  intros [[i a] txt] [H1 H2]. unfold timer_ok in *. simpl in *.
  split; [lia|]. intros Hi. destruct (Ht _ Hi) as [?|?]; [done|lia].
Qed.

Ltac inv_fact :=
  first
    [ done
    | match goal with
      | |- Forall (timer_ok _ _) (_ ++ [_]) =>
          apply Forall_app; split;
          [inv_fact
          |apply Forall_cons; split; [|apply Forall_nil_2];
           unfold timer_ok; simpl; split; [lia|congruence]]
      end
    | lia
    | congruence
    | match goal with
      | Hin : ?act = false -> _ |- ?act = false -> _ =>
          let Ha := fresh in intros Ha; specialize (Hin Ha); discriminate Hin
      end
    | match goal with
      | Htm : Forall (timer_ok _ _) ?tms |- Forall (timer_ok _ _) ?tms =>
          eapply (timer_ok_mono _ _ _ _ _ Htm); [lia|];
          let i := fresh in let Hi := fresh in
          intros i Hi; first [ discriminate Hi
                             | left; exact Hi
                             | right; injection Hi as <-; lia ]
      end
    | eauto ].

Ltac inv_close :=
  unfold PickerInv; simpl; eqb_solve;
  eexists; split; [reflexivity|]; simpl;
  repeat split; inv_fact.

Ltac unfold_picker :=
  unfold handleMouseOver, handleMouseOut, handleClick, handleKeyDown, onMessage,
    handleToolbarAction, timerFired, selectElement, showToolbar,
    highlightElement, togglePicker, clearHighlight, hideToolbar,
    sendMessage, createElement, appendChild,
    pbind, pget, pmodify, pret, plift; simpl.

Lemma initialPicker_inv {num} cursor0 (storage0 : option (StorageItems num)) :
  PickerInv (initialPicker cursor0 storage0).
Proof. exists []. simpl. repeat split; done || lia || by constructor. Qed.

Lemma step_inv {num} `{Number num} (env : Env num) (ev : Event) (s : Picker num) :
  PickerInv s -> PickerInv (step env ev s).
Proof.
  intros Hinv. destruct ev as [t|t|t|k|a| |a| ]; unfold step.
  - inv_open s Hinv; unfold_picker; destruct act; simpl; try solve [inv_close];
      destruct (targetInPicker _ _ _) as [[[|]|?|] ?]; simpl;
      try solve [inv_close].
  - inv_open s Hinv; unfold_picker; destruct act; simpl; try solve [inv_close];
      destruct (targetInPicker _ _ _) as [[[|]|?|] ?]; simpl;
      try solve [inv_close].
  - inv_open s Hinv; unfold_picker; destruct act; simpl; try solve [inv_close];
      destruct (targetInPicker _ _ _) as [[[|]|?|] ?]; simpl;
      try solve [inv_close];
      destruct (extractElementData _ _ _ _) as [[?|?|] ?]; simpl;
      try solve [inv_close].
  - inv_open s Hinv; unfold_picker; case_bool_decide; simpl;
      try solve [inv_close]; destruct act; simpl; try solve [inv_close].
  - inv_open s Hinv; unfold_picker; repeat case_bool_decide; simpl;
      try solve [inv_close]; destruct act; simpl; try solve [inv_close].
  - inv_open s Hinv; unfold_picker; try solve [inv_close].
  - inv_open s Hinv; unfold_picker; try solve [inv_close];
      unfold findButton; simpl; repeat case_decide; try lia; simpl;
      destruct a; simpl; try solve [inv_close].
  - inv_open s Hinv; unfold_picker; destruct tms as [|[[i a] txt] tms]; simpl;
      try solve [inv_close]; apply Forall_cons in Htm as [[Hi1 Hi2] Htm];
      simpl in Hi1, Hi2; unfold updateToolbarButton;
      destruct i as [|[|i]]; simpl;
      repeat match goal with
             | |- context [(?a =? ?b)%nat] =>
                 destruct (Nat.eqb_spec a b); [congruence|]; simpl
             end; inv_close.
Qed.

Lemma run_inv {num} `{Number num} (evs : list (Env num * Event)) (s : Picker num) :
  PickerInv s -> PickerInv (run evs s).
Proof.
  revert s. induction evs as [|[env ev] evs IH]; intros s Hs; simpl; [done|].
  apply IH. by apply step_inv.
Qed.

Lemma PickerInv_counts {num} (s : Picker num) :
  PickerInv s ->
  length (List.filter is_highlight (shadowRoot s)) <= 1
  /\ length (List.filter is_toolbar (shadowRoot s)) <= 1
  /\ (highlightedElement s = None <-> List.filter is_highlight (shadowRoot s) = [])
  /\ (toolbar s = None <-> List.filter is_toolbar (shadowRoot s) = [])
  /\ (forall i, toolbar s = Some i ->
        exists css, List.filter is_toolbar (shadowRoot s)
                    = [(i, ToolbarNode css toolbarButtons)])
  /\ NoDup (shadowRoot s).*1
  /\ (isPickerActive s = false ->
        shadowRoot s = [(1, StyleNode)]
        /\ highlightedElement s = None /\ toolbar s = None)
  /\ (isPickerActive s = true -> cursor s = "crosshair").
Proof.
  intros Hinv.
  destruct s as [act hl sel tb sr made cur sto snt tms];
  destruct Hinv as (rest & Hsr & Hok & Hmade & Hin & Hcur & _);
  simpl in *; subst sr.
  assert (Hoff : act = false -> rest = [] /\ hl = None /\ tb = None).
  { intros Ha. rewrite (Hin Ha) in Hok. split; [auto|exact Hok]. }
  clear Hin.
  destruct rest as [|[i [|?|? ?]] [|[j [|?|? ?]] [|? ?]]];
    simpl in Hok; try done; destruct_and?; subst; simpl.
  all: split; [lia|]; split; [lia|].
  all: split; [split; intros Hx; try done; try (by destruct H as [? ->])|].
  all: split; [split; intros Hx; done|].
  all: split; [intros ? [= <-]; eauto|].
  all: split; [|split; [intros Ha; destruct (Hoff Ha) as (Hr & ? & ?); try done; by rewrite ?Hr|done]].
  all: repeat (apply NoDup_cons; split);
       rewrite ?elem_of_cons, ?elem_of_nil; try apply NoDup_nil_2; try lia.
Qed.

Lemma PickerInv_style_first {num} (s : Picker num) :
  PickerInv s ->
  exists rest,
    shadowRoot s = (1, StyleNode) :: rest
    /\ Forall (fun c => is_highlight c || is_toolbar c = true) rest.
Proof.
  intros (rest & Hsr & Hok & _). exists rest. split; [exact Hsr|].
  clear Hsr.
  destruct rest as [|[i [|?|? ?]] [|[j [|?|? ?]] [|? ?]]];
    simpl in Hok; try done; by repeat constructor.
Qed.

(** X3.  Whatever events arrive, in whatever order and on whatever pages,
    and whether their handlers return or throw: the shadow root holds the
    style sheet first, whether the picker is on or off, and after it
    nothing but highlight boxes and toolbars, never more than one highlight
    box or more than one toolbar; the box is there exactly when
    [highlightedElement] is set and the toolbar exactly when the [toolbar]
    variable refers to it; a toolbar that is shown has its four buttons
    with their first labels, enabled; while the picker is off the shadow
    root holds nothing but the style sheet; while it is on the cursor is
    the crosshair. *)
Theorem picker_shadow_invariant {num} `{Number num}
    (evs : list (Env num * Event)) (cursor0 : string)
    (storage0 : option (StorageItems num)) :
  let s := run evs (initialPicker cursor0 storage0) in
  (exists rest,
     shadowRoot s = (1, StyleNode) :: rest
     /\ Forall (fun c => is_highlight c || is_toolbar c = true) rest)
  /\ length (List.filter is_highlight (shadowRoot s)) <= 1
  /\ length (List.filter is_toolbar (shadowRoot s)) <= 1
  /\ (highlightedElement s = None <-> List.filter is_highlight (shadowRoot s) = [])
  /\ (toolbar s = None <-> List.filter is_toolbar (shadowRoot s) = [])
  /\ (forall i, toolbar s = Some i ->
        exists css, List.filter is_toolbar (shadowRoot s)
                    = [(i, ToolbarNode css toolbarButtons)])
  /\ NoDup (shadowRoot s).*1
  /\ (isPickerActive s = false ->
        shadowRoot s = [(1, StyleNode)]
        /\ highlightedElement s = None /\ toolbar s = None)
  /\ (isPickerActive s = true -> cursor s = "crosshair").
Proof.
  intros s.
  assert (Hinv : PickerInv s) by apply run_inv, initialPicker_inv.
  split; [by apply PickerInv_style_first|by apply PickerInv_counts].
Qed.

(** ** Events the picker leaves alone *)

Lemma targetInPicker_host fuel d target n :
  d !! target = Some n -> id n = Some "fuzepicker-shadow-host" ->
  targetInPicker (S fuel) target d = (Ret true, d).
Proof.
  intros Hn Hid. unfold targetInPicker, bind at 1.
  rewrite (deref_Some _ _ _ Hn).
  assert (He : is_element n = true).
  { unfold id in Hid. unfold is_element, nodeType. by destruct (data n). }
  rewrite He. simpl. unfold bind. rewrite (deref_Some _ _ _ Hn).
  by rewrite bool_decide_eq_true_2.
Qed.

(** X4.  While the picker is off, and also when the target is the
    picker's own shadow host, a mouse-over, a mouse-out and a click change
    nothing: no highlight, no selection, no message, and the click is not
    kept from the page.  While it is off the page is not even read (any
    store, any fuel). *)
Theorem picker_ignores_events {num} `{Number num} (env : Env num)
    (target : ref) (s : Picker num) :
  isPickerActive s = false
  \/ (exists n, env_dom env !! target = Some n
                /\ id n = Some "fuzepicker-shadow-host"
                /\ 1 <= env_fuel env) ->
  handleMouseOver env target s = (Ret tt, s)
  /\ handleMouseOut env target s = (Ret tt, s)
  /\ handleClick env target s = (Ret false, s).
Proof.
  intros [Hoff|(n & Hn & Hid & Hf)].
  - unfold handleMouseOver, handleMouseOut, handleClick, pbind, pget.
    by rewrite Hoff.
  - destruct (env_fuel env) as [|fuel] eqn:Hfuel; [lia|].
    pose proof (targetInPicker_host fuel _ _ _ Hn Hid) as Ht.
    unfold handleMouseOver, handleMouseOut, handleClick, pbind, pget, plift.
    rewrite Hfuel, Ht. by destruct (isPickerActive s).
Qed.

Lemma picker_ignores_events_witness :
  (isPickerActive picker_on = false
   \/ exists n, page_doc !! 7%positive = Some n
                 /\ id n = Some "fuzepicker-shadow-host" /\ 1 <= 7)
  /\ isPickerActive picker_on = true
  /\ handleMouseOver page_env 7%positive picker_on = (Ret tt, picker_on)
  /\ handleClick page_env 7%positive picker_on = (Ret false, picker_on).
Proof.
  assert (Hh : isPickerActive picker_on = false
               \/ exists n, env_dom page_env !! 7%positive = Some n
                             /\ id n = Some "fuzepicker-shadow-host"
                             /\ 1 <= env_fuel page_env).
  { right. eexists. split; [reflexivity|]. split; [reflexivity|].
    simpl. lia. }
  destruct (picker_ignores_events page_env 7%positive picker_on Hh)
    as (Ho & _ & Hc).
  split; [exact Hh|]. split; [reflexivity|]. split; [exact Ho|exact Hc].
Defined.

(** ** A click on the page *)

Lemma synthesizer_returns d element n fuel :
  wf_dom d = true -> d !! element = Some n -> is_element n = true ->
  size d <= fuel ->
  exists x c,
    getXPath fuel element d = (Ret (Some x), d)
    /\ generateSelector element d = (Ret c, d)
    /\ (forall i, id n = Some i -> i <> "" ->
          x = "//*[@id=" +:+ dquote +:+ i +:+ dquote +:+ "]" /\ c = "#" +:+ i)
    /\ (id n = Some "" -> x = computeXPath d element).
Proof.
  intros Hwf Hn He Hf.
  destruct (is_element_data n He) as (tag & i & c & Hd).
  assert (Hid : id n = Some i) by (unfold id; by rewrite Hd).
  destruct i as [|a i].
  - eexists _, _. split; [|split; [|split]].
    + apply (getXPath_no_id d element n fuel Hwf Hn He); [|done]. by rewrite Hid.
    + eapply generateSelector_no_id; [done..|]. by eapply baseSelector_element.
    + intros j Hj Hne. congruence.
    + done.
  - eexists _, _. split; [|split; [|split]].
    + by apply (getXPath_id d element n (String a i)).
    + by apply (generateSelector_id d element n (String a i)).
    + intros j Hj _. rewrite Hid in Hj. by injection Hj as <-.
    + intros Hj. congruence.
Qed.

Lemma extractElementData_element {num} (h : Host num) d element n tag fuel x c :
  d !! element = Some n -> tagName n = Some tag ->
  getXPath fuel element d = (Ret x, d) ->
  generateSelector element d = (Ret c, d) ->
  extractElementData fuel h element d
  = (Ret {| ed_id := if truthy (id n) then id n else None;
            ed_tag := toLowerCase tag;
            ed_classes := classList n;
            ed_text := textOf (innerText h element);
            ed_html := outerHTML h element;
            ed_styles := relevantStyles (getPropertyValue h element);
            ed_attributes := attributesObject (attributes h element);
            ed_boundingBox := getBoundingClientRect h element;
            ed_xpath := x;
            ed_selector := c |}, d).
Proof.
  intros Hn Ht Hx Hc. unfold extractElementData, bind at 1.
  rewrite (deref_Some _ _ _ Hn).
  assert (He : is_element n = true).
  { unfold tagName in Ht. unfold is_element, nodeType. by destruct (data n). }
  rewrite He, Ht. unfold defined, bind, ret. rewrite Hx, Hc.
  do 3 f_equal. by destruct (getBoundingClientRect h element).
Qed.




(** ** Escape *)
Lemma handleKeyDown_Escape_off {num} (s : Picker num) :
  isPickerActive (handleKeyDown "Escape" s).2 = false
  /\ toolbar (handleKeyDown "Escape" s).2 = None
  /\ selectedElement (handleKeyDown "Escape" s).2 = selectedElement s
  /\ sent (handleKeyDown "Escape" s).2 = sent s
  /\ storage (handleKeyDown "Escape" s).2 = storage s
  /\ (handleKeyDown "Escape" s).1 = Ret tt.
Proof.
  destruct s as [act hl sel tb sr made cur sto snt tms].
  unfold handleKeyDown. rewrite bool_decide_eq_true_2 by done.
  unfold togglePicker, clearHighlight, hideToolbar, pbind, pget, pmodify, pret.
  simpl. destruct act, tb; simpl; done.
Qed.

(** X6.  From any state the picker can reach, Escape leaves it switched
    off with nothing but the style sheet in the shadow root (no highlight,
    no toolbar), and keeps the selection, the sent messages and the
    storage; any other key changes nothing. *)
Theorem escape_resets_picker {num} `{Number num}
    (evs : list (Env num * Event)) (cursor0 : string)
    (storage0 : option (StorageItems num)) (env : Env num) :
  let s := run evs (initialPicker cursor0 storage0) in
  let s' := step env (KeyDown "Escape") s in
  isPickerActive s' = false
  /\ shadowRoot s' = [(1, StyleNode)]
  /\ highlightedElement s' = None
  /\ toolbar s' = None
  /\ selectedElement s' = selectedElement s
  /\ sent s' = sent s
  /\ storage s' = storage s
  /\ forall key, key <> "Escape" -> step env (KeyDown key) s = s.
Proof.
  intros s s'.
  assert (Hinv : PickerInv s') by (apply step_inv, run_inv, initialPicker_inv).
  destruct (handleKeyDown_Escape_off s) as (Hoff & Htb & Hsel & Hsent & Hsto & _).
  destruct (PickerInv_counts s' Hinv) as (_ & _ & _ & _ & _ & _ & Hclean & _).
  destruct (Hclean Hoff) as (Hsr & Hhl & _).
  repeat split; try done.
  intros key Hk. unfold step, handleKeyDown.
  by rewrite bool_decide_eq_false_2.
Qed.

(** ** A toolbar button *)





(** ** Where the toolbar goes *)

(** X8.  On integer pixel values: the right edge of the 400-wide toolbar
    is never beyond the window width (it keeps the element's left edge, or
    is moved to 20 short of the right border); the toolbar is never laid
    over the element (it starts 10 below the element's bottom and then
    ends inside the window, or it ends 10 above the element's top); in a
    window narrower than 420 a toolbar that has to be moved starts left of
    the page. *)
Theorem toolbar_placement (h : Host Z) (rect : DOMRect Z) :
  (toolbarLeft h rect + 400 <= innerWidth h
   /\ (toolbarLeft h rect = rleft rect + scrollX h
       \/ toolbarLeft h rect = innerWidth h - 420)
   /\ ((toolbarTop h rect = rbottom rect + scrollY h + 10
        /\ toolbarTop h rect + 50 <= innerHeight h + scrollY h)
       \/ toolbarTop h rect + 50 = rtop rect + scrollY h - 10)
   /\ (innerWidth h < rleft rect + scrollX h + 400 -> innerWidth h < 420 ->
       toolbarLeft h rect < 0))%Z.
Proof.
  unfold toolbarLeft, toolbarTop. simpl.
  rewrite !Z.gtb_ltb.
  destruct (Z.ltb_spec (innerWidth h) (rleft rect + scrollX h + 400));
  destruct (Z.ltb_spec (innerHeight h + scrollY h)
                       (rbottom rect + scrollY h + 10 + 50)); lia.
Qed.

(** ** What [extractElementData] hands over *)

(** X9.  On an element of a finite page [extractElementData] returns and
    leaves the page alone.  Its [id] is [null] exactly when the element's
    id is empty; a non-null [id] is the element's id, and then [selector]
    and [xpath] are the id locators built from it; with a [null] id the
    [xpath] is the positional path; [xpath] is never [null]; [tag] is the
    lowercase tag name, [classes] the class list, the keys of [styles] are
    the sixteen of [stylesToCapture] in order, and the bounding box is the
    rectangle of the element. *)
Theorem extractElementData_fields {num} (h : Host num) (d : Dom)
    (element : ref) (n : NodeRec) (fuel : nat) :
  wf_dom d = true -> d !! element = Some n -> is_element n = true ->
  size d <= fuel ->
  exists data,
    extractElementData fuel h element d = (Ret data, d)
    /\ (ed_id data = None <-> id n = Some "")
    /\ (forall i, ed_id data = Some i ->
          id n = Some i
          /\ ed_selector data = "#" +:+ i
          /\ ed_xpath data
             = Some ("//*[@id=" +:+ dquote +:+ i +:+ dquote +:+ "]"))
    /\ (ed_id data = None -> ed_xpath data = Some (computeXPath d element))
    /\ Some (ed_tag data) = toLowerCase <$> tagName n
    /\ ed_classes data = classList n
    /\ (ed_styles data).*1 = stylesToCapture
    /\ ed_boundingBox data = getBoundingClientRect h element.
Proof.
  intros Hwf Hn He Hf.
  destruct (synthesizer_returns d element n fuel Hwf Hn He Hf)
    as (x & c & Hx & Hc & Hid & Hno).
  destruct (is_element_data n He) as (tag & i & cl & Hd).
  assert (Ht : tagName n = Some tag) by (unfold tagName; by rewrite Hd).
  assert (Hi : id n = Some i) by (unfold id; by rewrite Hd).
  eexists. split.
  { eapply extractElementData_element; [done|exact Ht|exact Hx|exact Hc]. }
  simpl. rewrite Hi, Ht. destruct i as [|a i]; simpl.
  - repeat split; try done. intros _. by rewrite (Hno Hi).
  - destruct (Hid _ Hi) as [-> ->]; [done|].
    split; [done|]. split; [|done].
    intros j [= <-]. done.
Qed.

Lemma extractElementData_fields_witness :
  wf_dom page_doc = true
  /\ page_doc !! 4%positive
     = Some (elem "BUTTON" "save" "btn primary" (Some 3%positive) None
               (Some 5%positive))
  /\ size page_doc <= 7
  /\ exists data,
       extractElementData 7 page_host 4%positive page_doc = (Ret data, page_doc)
       /\ ed_id data = Some "save"
       /\ ed_selector data = "#save"
       /\ ed_classes data = ["btn"; "primary"].
Proof.
  assert (Hwf : wf_dom page_doc = true) by (vm_compute; reflexivity).
  assert (Hs : size page_doc <= 7) by (vm_compute; lia).
  destruct (extractElementData_fields page_host page_doc 4%positive _ 7
              Hwf eq_refl eq_refl Hs)
    as (data & Hd & _ & Hsome & _ & _ & Hcl & _).
  split; [exact Hwf|]. split; [reflexivity|]. split; [exact Hs|].
  exists data.
  assert (Hi : ed_id data = Some "save")
    by (vm_compute in Hd; by injection Hd as <-).
  destruct (Hsome _ Hi) as (_ & Hsel & _).
  repeat split; assumption.
Defined.

(** Off the elements the call throws at once. *)
Lemma extractElementData_non_element {num} (h : Host num) d element n fuel :
  d !! element = Some n -> is_element n = false ->
  extractElementData fuel h element d = (Throw TypeError, d).
Proof.
  intros Hn He. unfold extractElementData, bind at 1.
  by rewrite (deref_Some _ _ _ Hn), He.
Qed.

(** ** The attributes object *)

Lemma attributesObject_fold (attrs : list (string * string)) :
  forall (acc : gmap string string) k v,
    k <> "__proto__" -> NoDup (attrs.*1) ->
    foldl (fun acc attr =>
             if bool_decide (attr.1 = "__proto__") then acc
             else <[attr.1 := attr.2]> acc) acc attrs !! k = Some v
    <-> (k, v) ∈ attrs \/ ((k ∉ attrs.*1) /\ acc !! k = Some v).
Proof.
  induction attrs as [|[k0 v0] attrs IH]; intros acc k v Hk Hnd; simpl.
  - rewrite elem_of_nil. split; [intros H; right; split; [apply not_elem_of_nil|done]|].
    by intros [[]|[_ H]].
  - apply NoDup_cons in Hnd as [Hk0 Hnd]. rewrite (IH _ k v Hk Hnd).
    rewrite !elem_of_cons. simpl.
    destruct (decide (k = k0)) as [->|Hne].
    + rewrite bool_decide_eq_false_2 by done. rewrite lookup_insert_eq.
      split.
      * intros [Hin|[_ [= <-]]]; [|by left; left].
        exfalso. apply Hk0. apply list_elem_of_fmap. by exists (k0, v).
      * intros [[[= <-]|Hin]|[Hnot _]].
        -- right. split; [done|by f_equal].
        -- exfalso. apply Hk0. apply list_elem_of_fmap. by exists (k0, v).
        -- exfalso. apply Hnot. by left.
    + assert (Hl : (if bool_decide (k0 = "__proto__") then acc
                    else <[k0:=v0]> acc) !! k = acc !! k).
      { case_bool_decide; [done|]. by rewrite lookup_insert_ne. }
      rewrite Hl. split.
      * intros [Hin|[Hnot Ha]]; [by left; right|].
        right. split; [|done]. intros [?|?]; [done|by apply Hnot].
      * intros [[[= ? ?]|Hin]|[Hnot Ha]]; [done|by left|].
        right. split; [|done]. intros ?. apply Hnot. by right.
Qed.

Lemma attributesObject_proto_fold (attrs : list (string * string)) :
  forall acc : gmap string string,
    acc !! "__proto__" = None ->
    foldl (fun acc attr =>
             if bool_decide (attr.1 = "__proto__") then acc
             else <[attr.1 := attr.2]> acc) acc attrs
    !! "__proto__" = None.
Proof.
  induction attrs as [|[k0 v0] attrs IH]; intros acc Ha; simpl; [done|].
  apply IH. case_bool_decide; [done|]. by rewrite lookup_insert_ne.
Qed.

(** X10.  For attributes with distinct names, as an element has them, the
    object built by the [reduce] maps every name other than [__proto__] to
    the value of that attribute and has no other key; an attribute named
    [__proto__] never becomes a key. *)
Theorem attributesObject_lookup (attrs : list (string * string)) :
  NoDup (attrs.*1) ->
  (forall k v, k <> "__proto__" ->
     (attributesObject attrs !! k = Some v <-> (k, v) ∈ attrs))
  /\ attributesObject attrs !! "__proto__" = None
  /\ (forall k, attributesObject attrs !! k = None <->
                k = "__proto__" \/ (k ∉ attrs.*1)).
Proof.
  intros Hnd.
  assert (Hf : forall k v, k <> "__proto__" ->
            (attributesObject attrs !! k = Some v <-> (k, v) ∈ attrs)).
  { intros k v Hk. unfold attributesObject.
    rewrite (attributesObject_fold attrs ∅ k v Hk Hnd).
    rewrite lookup_empty. split; [|by left].
    by intros [?|[_ ?]]. }
  assert (Hp : attributesObject attrs !! "__proto__" = None).
  { apply attributesObject_proto_fold, lookup_empty. }
  split; [exact Hf|]. split; [exact Hp|].
  intros k. destruct (decide (k = "__proto__")) as [->|Hk].
  - split; [by left|done].
  - rewrite eq_None_not_Some. unfold is_Some. split.
    + intros Hno. right. intros Hin.
      apply list_elem_of_fmap in Hin as ([k' v] & -> & Hin).
      apply Hno. exists v. by apply Hf.
    + intros [?|Hnot] [v Hv]; [done|]. apply Hf in Hv; [|done].
      apply Hnot. apply list_elem_of_fmap. by exists (k, v).
Qed.

Lemma attributesObject_lookup_witness :
  NoDup ([("class", "card"); ("__proto__", "x"); ("data-k", "1")].*1)
  /\ attributesObject [("class", "card"); ("__proto__", "x"); ("data-k", "1")]
     !! "class" = Some "card"
  /\ attributesObject [("class", "card"); ("__proto__", "x"); ("data-k", "1")]
     !! "__proto__" = None.
Proof.
  assert (Hnd : NoDup ([("class", "card"); ("__proto__", "x");
                        ("data-k", "1")].*1)).
  { simpl. repeat (apply NoDup_cons; split);
      rewrite ?elem_of_cons, ?elem_of_nil; try apply NoDup_nil_2;
      intros H; repeat destruct H as [H|H]; done. }
  destruct (attributesObject_lookup _ Hnd) as (Hf & Hp & _).
  split; [exact Hnd|]. split; [|exact Hp].
  apply Hf; [discriminate|]. apply list_elem_of_here.
Defined.

(** ** The service worker (background.js) *)

Lemma pretty_N_go_numeral x : forall s,
  string_forall is_numeral_char s = true ->
  string_forall is_numeral_char (pretty_N_go x s) = true.
Proof.
  induction (N.lt_wf_0 x) as [x _ IH]; intros s Hs.
  assert (x = 0 \/ 0 < x)%N as [->|Hx] by lia.
  - by rewrite pretty_N_go_0.
  - rewrite pretty_N_go_step by done. apply IH.
    { by apply N.div_lt. }
    simpl. rewrite Hs, andb_true_r.
    unfold pretty_N_char. by repeat case_match.
Qed.

Lemma pretty_Z_numeral (z : Z) : string_forall is_numeral_char (pretty z) = true.
Proof.
  assert (HN : forall n : N, string_forall is_numeral_char (pretty n) = true).
  { intros n. unfold pretty, pretty_N. case_decide; [done|].
    by apply pretty_N_go_numeral. }
  destruct z as [|p|p]; [done|apply (HN (Npos p))|].
  change (pretty (Z.neg p)) with ("-" +:+ pretty (Npos p)).
  simpl. apply (HN (Npos p)).
Qed.

Lemma underscore_split a : forall a' b b',
  string_forall is_numeral_char a = true ->
  string_forall is_numeral_char a' = true ->
  a +:+ "_" +:+ b = a' +:+ "_" +:+ b' -> a = a' /\ b = b'.
Proof.
  induction a as [|c a IH]; intros [|c' a'] b b' Ha Ha' He.
  - change (String "_" b = String "_" b') in He. by injection He as ->.
  - change (String "_" b = String c' (a' +:+ "_" +:+ b')) in He.
    injection He as <- _. by simpl in Ha'.
  - change (String c (a +:+ "_" +:+ b) = String "_" b') in He.
    injection He as -> _. by simpl in Ha.
  - change (String c (a +:+ "_" +:+ b) = String c' (a' +:+ "_" +:+ b')) in He.
    injection He as -> He. simpl in Ha, Ha'.
    apply andb_true_iff in Ha as [_ Ha].
    apply andb_true_iff in Ha' as [_ Ha'].
    destruct (IH _ _ _ Ha Ha' He) as [-> ->]. done.
Qed.

(** X11.  The key of a selection, the tab id and the time joined by an
    underscore, tells the two apart: two selections get the same key only
    when they come from the same tab in the same millisecond (tab ids and
    times being integers, printed in decimal). *)
Theorem selectionId_injective (tabId t tabId' t' : Z) :
  selectionId tabId t = selectionId tabId' t' <-> tabId = tabId' /\ t = t'.
Proof.
  split; [|by intros [-> ->]].
  unfold selectionId. simpl. intros He.
  apply underscore_split in He as [H1 H2]; try apply pretty_Z_numeral.
  split; by apply (inj pretty).
Qed.

Section MapSet.
Context {V : Type}.
Implicit Types (m : list (string * V)) (k : string) (v : V).

Lemma mapGet_cons k k' v' m :
  mapGet k ((k', v') :: m) = if decide (k' = k) then Some v' else mapGet k m.
Proof.
  unfold mapGet. simpl. case_decide; [done|].
  by destruct (list_find _ m) as [[? [? ?]]|].
Qed.

Lemma mapGet_mapSet_eq k v m : mapGet k (mapSet k v m) = Some v.
Proof.
  induction m as [|[k' v'] m IH]; simpl.
  - rewrite mapGet_cons. by rewrite decide_True.
  - case_bool_decide; rewrite mapGet_cons.
    + by rewrite decide_True.
    + by rewrite decide_False.
Qed.

Lemma mapGet_mapSet_ne k k0 v m :
  k0 <> k -> mapGet k0 (mapSet k v m) = mapGet k0 m.
Proof.
  intros Hne. induction m as [|[k' v'] m IH]; simpl.
  - rewrite mapGet_cons. by rewrite decide_False.
  - case_bool_decide; rewrite !mapGet_cons.
    + subst. by rewrite !decide_False by done.
    + by rewrite IH.
Qed.

Lemma mapSet_absent k v m : k ∉ m.*1 -> mapSet k v m = (m ++ [(k, v)])%list.
Proof.
  induction m as [|[k' v'] m IH]; simpl; [done|].
  rewrite not_elem_of_cons. intros [Hne Hin].
  rewrite bool_decide_eq_false_2 by done. by rewrite IH.
Qed.

Lemma mapSet_keys_present k v m : k ∈ m.*1 -> (mapSet k v m).*1 = m.*1.
Proof.
  induction m as [|[k' v'] m IH]; simpl.
  - by rewrite elem_of_nil.
  - rewrite elem_of_cons. intros Hin. case_bool_decide; simpl.
    + by subst.
    + f_equal. apply IH. by destruct Hin.
Qed.

Lemma mapSet_keys k v m :
  (mapSet k v m).*1 = if bool_decide (k ∈ m.*1) then m.*1 else (m.*1 ++ [k])%list.
Proof.
  case_bool_decide.
  - by apply mapSet_keys_present.
  - rewrite mapSet_absent by done. by rewrite fmap_app.
Qed.

Lemma mapGet_None k m : mapGet k m = None <-> k ∉ m.*1.
Proof.
  induction m as [|[k' v'] m IH]; simpl.
  - split; [intros _; apply not_elem_of_nil|done].
  - rewrite mapGet_cons, not_elem_of_cons. case_decide.
    + split; [done|]. intros [? _]. by subst.
    + rewrite IH. split; [by split|by intros [_ ?]].
Qed.
End MapSet.

Lemma WellKeyed_mapSet {num} (s : Background num) (sel : Selection num) q c n :
  WellKeyed s ->
  WellKeyed (mkBackground (mapSet (sel_id sel) sel (currentSelections s)) q c n).
Proof.
  intros [Hnd Hk]. split; simpl.
  - rewrite mapSet_keys. case_bool_decide; [done|].
    apply NoDup_app. split; [done|]. split; [|apply NoDup_singleton].
    intros x Hx ->%list_elem_of_singleton. done.
  - clear Hnd. induction (currentSelections s) as [|[k v] m IH]; simpl.
    + by repeat constructor.
    + apply Forall_cons in Hk as [Hkv Hm]. case_bool_decide.
      * by constructor.
      * constructor; [done|by apply IH].
Qed.

(** X12.  [handleElementSelected] stores the selection under its key
    before the backend is asked, with no comments and no AI outputs, and
    leaves every other key as it was: a new key goes last, a key that is
    there keeps its place and loses its old value.  What the backend
    answers changes nothing of the map; the task queue is not touched; and
    a message whose sender is no tab throws before anything is stored. *)
Theorem handleElementSelected_stores {num} `{Number num}
    (element : ElementData num) (pageUrl : string) (tabId t1 t2 : num)
    (s : Background num) :
  let id := selectionId tabId t1 in
  let sel := mkSelection id element pageUrl tabId t2 [] ∅ in
  let s' := (handleElementSelected element pageUrl (Some tabId) t1 t2 s).2 in
  mapGet id (currentSelections s') = Some sel
  /\ (forall k, k <> id ->
        mapGet k (currentSelections s') = mapGet k (currentSelections s))
  /\ (mapGet id (currentSelections s) = None ->
        currentSelections s' = (currentSelections s ++ [(id, sel)])%list)
  /\ (mapGet id (currentSelections s) <> None ->
        (currentSelections s').*1 = (currentSelections s).*1)
  /\ (forall saved,
        currentSelections (elementSaved saved s') = currentSelections s')
  /\ aiTaskQueue s' = aiTaskQueue s
  /\ dataUpdated s' = dataUpdated s
  /\ (WellKeyed s -> WellKeyed s')
  /\ handleElementSelected element pageUrl None t1 t2 s = (Err NullAccess, s).
Proof.
  intros id sel s'. subst s'. unfold handleElementSelected. simpl.
  fold id. fold sel.
  split; [apply mapGet_mapSet_eq|].
  split; [intros k Hk; by apply mapGet_mapSet_ne|].
  split; [intros Hn; apply mapSet_absent; by apply mapGet_None|].
  split.
  { intros Hn. apply mapSet_keys_present.
    destruct (decide (id ∈ (currentSelections s).*1)) as [|Hno]; [done|].
    by apply mapGet_None in Hno. }
  split; [done|]. split; [done|]. split; [done|]. split; [|done].
  intros Hwk. apply (WellKeyed_mapSet s sel). exact Hwk.
Qed.

Lemma updateFirst_keys {A} (p : A -> bool) (f : A -> A) (m : list (string * A)) :
  (updateFirst p f m).*1 = m.*1.
Proof.
  induction m as [|[k a] m IH]; [done|].
  cbn [updateFirst]. destruct (p a); [done|].
  rewrite !fmap_cons. by rewrite IH.
Qed.

Lemma updateFirst_split {A} (p : A -> bool) (f : A -> A)
    (before after : list (string * A)) k a :
  Forall (fun e => p e.2 = false) before -> p a = true ->
  updateFirst p f (before ++ (k, a) :: after)
  = (before ++ (k, f a) :: after)%list.
Proof.
  intros Hb Ha. induction before as [|[k' a'] before IH]; simpl.
  - by rewrite Ha.
  - apply Forall_cons in Hb as [Hp Hb]. simpl in Hp. rewrite Hp.
    by rewrite IH.
Qed.

Lemma updateFirst_none {A} (p : A -> bool) (f : A -> A) (m : list (string * A)) :
  Forall (fun e => p e.2 = false) m -> updateFirst p f m = m.
Proof.
  induction m as [|[k a] m IH]; simpl; [done|].
  intros [Hp Hm]%Forall_cons. simpl in Hp. rewrite Hp. by rewrite IH.
Qed.

Lemma settle_selections {num} (p : Selection num -> bool)
    (f : Selection num -> Selection num) (m : list (string * Selection num)) :
  NoDup (m.*1) -> Forall (fun e : string * Selection num => sel_id e.2 = e.1) m ->
  match list_find (fun e : string * Selection num => p e.2 = true) m with
  | Some (_, (_, sel)) => mapSet (sel_id sel) (f sel) (updateFirst p f m)
  | None => m
  end = updateFirst p f m.
Proof.
  induction m as [|[k a] m IH]; intros Hnd Hk; [done|].
  apply NoDup_cons in Hnd as [Hk0 Hnd]. apply Forall_cons in Hk as [Hka Hk].
  simpl in Hka. cbn [list_find updateFirst]. simpl.
  destruct (p a) eqn:Hp.
  - rewrite decide_True by done. simpl. rewrite Hka.
    by rewrite bool_decide_eq_true_2.
  - rewrite decide_False by done. specialize (IH Hnd Hk).
    destruct (list_find _ m) as [[i [k' sel]]|] eqn:Hfind; simpl.
    + apply list_find_Some in Hfind as (Hl & _ & _).
      assert (Hin : (k', sel) ∈ m) by (by eapply list_elem_of_lookup_2).
      assert (Hid : sel_id sel = k').
      { rewrite Forall_forall in Hk. by apply (Hk (k', sel)). }
      assert (Hne : k <> k').
      { intros ->. apply Hk0. apply list_elem_of_fmap. by exists (k', sel). }
      rewrite Hid in *. rewrite bool_decide_eq_false_2 by done.
      by f_equal.
    + by f_equal.
Qed.

(** X13.  When the request of [processAiTask] fails, nothing is stored
    and the popup is not told: [getFallbackAiResponse] reads [pageUrl],
    which is no parameter of it and no variable of the script, so it throws
    a [ReferenceError] for every task and every element, and
    [handleAiTask] ends in its [catch] with the log line of the failed
    task.  With a global of that name the function would return. *)
Theorem failed_request_stores_nothing {num} `{Number num} (task : string)
    (element : option (ElementData num)) (tabId : num) (s : Background num) :
  let s' := aiTaskSettled None task element tabId Failed s in
  currentSelections s' = currentSelections s
  /\ dataUpdated s' = dataUpdated s
  /\ aiTaskQueue s' = aiTaskQueue s
  /\ last (console s') = Some ("AI task " +:+ task +:+ " failed:")
  /\ (forall el : ElementData num,
        getFallbackAiResponse None task el = Err (ReferenceError "pageUrl"))
  /\ (forall (el : ElementData num) pageUrl,
        exists r, getFallbackAiResponse (Some pageUrl) task el = Ok r).
Proof.
  intros s'. subst s'. unfold aiTaskSettled, processAiTask.
  assert (Hlast : forall (l : list string) x y, last (l ++ x ++ [y]) = Some y).
  { intros l x y. by rewrite app_assoc, last_snoc. }
  destruct element as [el|]; simpl.
  all: split; [done|]; split; [done|]; split; [done|].
  all: split; [apply (Hlast _ [_]) || apply (Hlast _ [])|].
  all: split; [done|].
  all: intros el' p; eexists; reflexivity.
Qed.

Lemma aiTaskSettled_replied {num} `{Number num} (g : option string)
    (task : string) (el : ElementData num) (tabId : num) (json : string)
    (s : Background num) :
  WellKeyed s ->
  currentSelections (aiTaskSettled g task (Some el) tabId (Replied json) s)
  = updateFirst
      (fun sel => neq (sel_tabId sel) tabId
                  && bool_decide (ed_html (sel_element sel) = ed_html el))
      (setAiOutput task (FromBackend json)) (currentSelections s).
Proof.
  intros [Hnd Hk]. unfold aiTaskSettled, processAiTask. simpl.
  exact (settle_selections
           (fun sel => neq (sel_tabId sel) tabId
                       && bool_decide (ed_html (sel_element sel) = ed_html el))
           (setAiOutput task (FromBackend json)) _ Hnd Hk).
Qed.

(** X14.  When the backend answers, the answer is put under the task's
    name in the AI outputs of the first selection, in insertion order, that
    has the tab of the request and the same [html] as its element; every
    other selection, the keys and their order stay as they are, nothing is
    stored when no selection matches, and the popup is told once either
    way. *)
Theorem replied_request_updates_first {num} `{Number num}
    (pageUrlGlobal : option string) (task : string) (el : ElementData num)
    (tabId : num) (json : string) (s : Background num) :
  WellKeyed s ->
  let s' := aiTaskSettled pageUrlGlobal task (Some el) tabId (Replied json) s in
  let matches (sel : Selection num) :=
    neq (sel_tabId sel) tabId
    && bool_decide (ed_html (sel_element sel) = ed_html el) in
  dataUpdated s' = S (dataUpdated s)
  /\ (currentSelections s').*1 = (currentSelections s).*1
  /\ (forall before k sel after,
        currentSelections s = (before ++ (k, sel) :: after)%list ->
        Forall (fun e => matches e.2 = false) before -> matches sel = true ->
        currentSelections s'
        = (before ++ (k, setAiOutput task (FromBackend json) sel) :: after)%list)
  /\ (Forall (fun e => matches e.2 = false) (currentSelections s) ->
        currentSelections s' = currentSelections s)
  /\ aiTaskQueue s' = aiTaskQueue s
  /\ WellKeyed s'.
Proof.
  intros [Hnd Hk] s' matches.
  assert (Hs : currentSelections s'
               = updateFirst matches (setAiOutput task (FromBackend json))
                   (currentSelections s)).
  { by apply aiTaskSettled_replied. }
  split; [done|]. split; [by rewrite Hs, updateFirst_keys|].
  split; [intros before k sel after Hm Hb Hsel; rewrite Hs, Hm;
          by apply updateFirst_split|].
  split; [intros Hno; rewrite Hs; by apply updateFirst_none|].
  split; [done|].
  split; rewrite Hs.
  - by rewrite updateFirst_keys.
  - clear Hs Hnd. induction (currentSelections s) as [|[k a] m IH]; simpl; [done|].
    apply Forall_cons in Hk as [Hka Hk]. destruct (matches a); simpl.
    + by constructor.
    + constructor; [done|by apply IH].
Qed.

Lemma page_span_extracted :
  (extractElementData 10 page_host 6%positive page_doc).1 = Ret page_span.
Proof. vm_compute. reflexivity. Qed.

Lemma replied_request_updates_first_witness :
  WellKeyed background_selected
  /\ currentSelections
       (aiTaskSettled None "figma" (Some page_span) 7%Z (Replied "{}")
          background_selected)
     = [("7_1700000000000",
         mkSelection "7_1700000000000" page_span "https://example.org/" 7%Z
           1700000000000%Z [] {[ "figma" := FromBackend "{}" ]})].
Proof.
  assert (Hwk : WellKeyed background_selected).
  { split; vm_compute; [apply NoDup_singleton|by repeat constructor]. }
  split; [exact Hwk|].
  destruct (replied_request_updates_first None "figma" page_span 7%Z "{}"
              background_selected Hwk) as (_ & _ & Hfirst & _).
  rewrite (Hfirst [] "7_1700000000000"
             (mkSelection "7_1700000000000" page_span "https://example.org/"
                7%Z 1700000000000%Z [] ∅) []); [reflexivity|reflexivity|
    constructor|reflexivity].
Defined.






(** X16.  Selecting an element and then asking for a task, as the toolbar
    does, with a new key and an answer from the backend: the answer lands
    on the new selection only when no older selection of the tab has the
    same [html]; when one has, the answer goes to the oldest such
    selection and the new one is stored, last, with no AI output. *)
Theorem result_goes_to_oldest_match (g : option string) (data : ElementData Z)
    (pageUrl task json : string) (tabId t1 t2 t : Z) (s : Background Z) :
  WellKeyed s ->
  mapGet (selectionId tabId t1) (currentSelections s) = None ->
  let id := selectionId tabId t1 in
  let new := mkSelection id data pageUrl tabId t2 [] ∅ in
  let matches (sel : Selection Z) :=
    neq (sel_tabId sel) tabId
    && bool_decide (ed_html (sel_element sel) = ed_html data) in
  let s' :=
    bgRun g [ElementSelectedMsg data pageUrl (Some tabId) t1 t2;
             AiTaskMsg task (Some data) pageUrl (Some tabId) t;
             AiTaskSettled task (Some data) tabId (Replied json)] s in
  (Forall (fun e => matches e.2 = false) (currentSelections s) ->
     currentSelections s'
     = (currentSelections s
        ++ [(id, setAiOutput task (FromBackend json) new)])%list)
  /\ (forall before k old after,
        currentSelections s = (before ++ (k, old) :: after)%list ->
        Forall (fun e => matches e.2 = false) before -> matches old = true ->
        currentSelections s'
        = (before ++ (k, setAiOutput task (FromBackend json) old)
             :: after ++ [(id, new)])%list).
Proof.
  intros Hwk Hfresh id new matches s'.
  assert (Hnew : matches new = true).
  { unfold matches, new. simpl. rewrite Z.eqb_refl.
    by rewrite bool_decide_eq_true_2. }
  pose (s1 := (handleElementSelected data pageUrl (Some tabId) t1 t2 s).2).
  assert (Hs1 : currentSelections s1 = (currentSelections s ++ [(id, new)])%list).
  { apply mapSet_absent. by apply mapGet_None. }
  assert (Hwk1 : WellKeyed s1) by (apply (WellKeyed_mapSet s new); exact Hwk).
  pose (s2 := (handleAiTask task (Some data) pageUrl (Some tabId) t s1).2).
  assert (Hwk2 : WellKeyed s2) by exact Hwk1.
  assert (Hs' : currentSelections s'
                = updateFirst matches (setAiOutput task (FromBackend json))
                    (currentSelections s ++ [(id, new)])%list).
  { rewrite <- Hs1.
    exact (aiTaskSettled_replied g task data tabId json s2 Hwk2). }
  split.
  - intros Hno. rewrite Hs'.
    by rewrite (updateFirst_split matches _ (currentSelections s) [] id new).
  - intros before k old after Hm Hb Hold. rewrite Hs', Hm.
    rewrite <- app_assoc. simpl.
    by rewrite (updateFirst_split matches _ before _ k old).
Qed.

Lemma result_goes_to_oldest_match_witness :
  currentSelections
    (bgRun None
       [ElementSelectedMsg page_span "https://example.org/" (Some 7%Z)
          1700000000500%Z 1700000000500%Z;
        AiTaskMsg "react" (Some page_span) "https://example.org/" (Some 7%Z)
          1700000000900%Z;
        AiTaskSettled "react" (Some page_span) 7%Z (Replied "{}")]
       background_selected)
  = [("7_1700000000000",
      mkSelection "7_1700000000000" page_span "https://example.org/" 7%Z
        1700000000000%Z [] {[ "react" := FromBackend "{}" ]});
     ("7_1700000000500",
      mkSelection "7_1700000000500" page_span "https://example.org/" 7%Z
        1700000000500%Z [] ∅)].
Proof.
  assert (Hwk : WellKeyed background_selected).
  { split; vm_compute; [apply NoDup_singleton|by repeat constructor]. }
  destruct (result_goes_to_oldest_match None page_span "https://example.org/"
              "react" "{}" 7%Z 1700000000500%Z 1700000000500%Z
              1700000000900%Z background_selected Hwk eq_refl) as [_ Hold].
  rewrite (Hold [] "7_1700000000000"
             (mkSelection "7_1700000000000" page_span "https://example.org/"
                7%Z 1700000000000%Z [] ∅) []); [reflexivity|reflexivity|
    constructor|reflexivity].
Defined.
